(** * Gyneo: cycle statistics, calendar overlay and log persistence

    A shallow embedding of the client logic of [src/App.tsx]: the date
    helpers, [calculateCycleStats], the calendar's [getDateStatus] and its
    grid of days, the daily logger and the settings form, the three write
    handlers ([handleSaveSettings], [handleLogSave], [handleTogglePeriod])
    and the subscription callbacks, together with the part of the remote
    document store they read and write.

    Conventions of the model.
    - A day count or a stored setting, a JavaScript number that holds an
      integer, is a [Z].  Where numbers are printed and read back (the
      settings form) the Number values are modelled as such, with the
      rounding to doubles and the text forms of [String] and [parseInt].
    - A calendar date string [YYYY-MM-DD] is represented by its day number
      (days since 1970-01-01).  [new Date(dateStr)] parses a date-only string
      as UTC midnight, hence [getTime].  String equality and the
      lexicographic order on well-formed date strings are equality and
      order on day numbers.
    - The wall clock is an input: [nowMs] is [new Date().getTime()] and
      [todayStr] is [formatDate(new Date())], the local calendar date.
    - React state is a record, each [setX] a record update, and the remote
      store is an explicit value threaded through the handlers.  Remote
      writes are modelled on their success path (a failure is caught and
      only logged by the source). *)

From Stdlib Require Import ZArith List Bool Lia Ascii Sorted.
From stdpp Require Import gmap strings list fin_maps pretty sorting.

Local Open Scope Z_scope.

(** ** Types *)

Inductive Flow := Light | Medium | Heavy | Spotting.

#[global] Instance Flow_eq_dec : EqDecision Flow.
Proof. solve_decision. Defined.

(** [interface UserSettings]. *)
Record UserSettings := mkSettings {
  cycleLength : Z;
  periodLength : Z
}.

(** [interface DailyLog].  [id] is the document id, which the application
    always takes to be the date; [createdAt] is absent on records read from
    the store (no write ever sends it).  [flow] is a label or [null], as
    the interface declares: both callers of [handleLogSave] send a [flow]
    key, so a log never lacks it. *)
Record DailyLog := mkLog {
  id : Z;
  date : Z;
  flow : option Flow;
  mood : option string;
  symptoms : list string;
  createdAt : option Z
}.

(** [Partial<DailyLog>] as the save handlers receive it, and the shape of a
    stored log document: [date] is always there ([data.date!]); every other
    key may be missing ([None]), and [flow] and [mood] may be present and
    [null] ([Some None]). *)
Record LogData := mkData {
  d_date : Z;
  d_flow : option (option Flow);
  d_mood : option (option string);
  d_symptoms : option (list string)
}.

Inductive View := dashboard | calendar | log | settingsView.

Record Clock := mkClock {
  nowMs : Z;
  todayStr : Z
}.

(** ** Date helpers and arithmetic of [Math] *)

Definition msPerDay : Z := 24 * 60 * 60 * 1000.

(** [new Date(dateStr).getTime()]. *)
Definition getTime (dateStr : Z) : Z := dateStr * msPerDay.

(** [Math.ceil(a / b)] for a positive divisor. *)
Definition Math_ceil_div (a b : Z) : Z := - ((- a) / b).

(** [Math.round(a / b)] for a positive divisor: halves round up. *)
Definition Math_round_div (a b : Z) : Z := (2 * a + b) / (2 * b).

(** [getDaysBetween(start, end)] on two instants. *)
Definition getDaysBetween (startMs endMs : Z) : Z :=
  Math_round_div (Z.abs (startMs - endMs)) msPerDay.

(** The remainder operator [a % b]: [NaN] ([None]) for a zero divisor,
    otherwise the remainder that takes the sign of the dividend. *)
Definition jsRem (a b : Z) : option Z :=
  if b =? 0 then None else Some (Z.rem a b).

(** A comparison whose left operand may be [NaN] is false on [NaN]. *)
Definition nanTest (o : option Z) (p : Z -> bool) : bool :=
  match o with Some v => p v | None => false end.

(** ** Cycle statistics *)

(** [l.flow !== null]. *)
Definition flowNotNull (l : DailyLog) : bool :=
  match flow l with Some _ => true | None => false end.

(** [l.flow] used as a condition: the four flow labels are non-empty
    strings, so only [null] is falsy. *)
Definition flowTruthy (l : DailyLog) : bool :=
  match flow l with Some _ => true | None => false end.

(** [Array.prototype.sort] with the comparator
    [(a, b) => new Date(b.date).getTime() - new Date(a.date).getTime()]:
    a stable sort, newest first. *)
Fixpoint insertDesc (x : DailyLog) (l : list DailyLog) : list DailyLog :=
  match l with
  | [] => [x]
  | y :: r =>
      if getTime (date y) - getTime (date x) <=? 0
      then x :: y :: r
      else y :: insertDesc x r
  end.

Definition sortDesc (l : list DailyLog) : list DailyLog :=
  foldr insertDesc [] l.

Definition flowLogs (currentLogs : list DailyLog) : list DailyLog :=
  sortDesc (List.filter flowNotNull currentLogs).

(** The first loop of the prediction block: walking the sorted flow logs
    from index 1, a log more than 7 days away from its predecessor is
    pushed as a period start. *)
Fixpoint laterStarts (prev : DailyLog) (rest : list DailyLog) : list Z :=
  match rest with
  | [] => []
  | curr :: rest' =>
      let diffDays :=
        Z.abs ((getTime (date prev) - getTime (date curr)) / msPerDay) in
      (if 7 <? diffDays then [date curr] else []) ++ laterStarts curr rest'
  end.

Definition periodStarts (fl : list DailyLog) : list Z :=
  match fl with
  | [] => []
  | first :: rest => date first :: laterStarts first rest
  end.

(** The second loop: [(totalDays, count)] over consecutive start pairs,
    keeping a gap only when [gap > 20 && gap < 45]. *)
Fixpoint gapTotals (starts : list Z) : Z * Z :=
  match starts with
  | a :: ((b :: _) as tl) =>
      let gap := Z.abs ((getTime a - getTime b) / msPerDay) in
      let '(totalDays, count) := gapTotals tl in
      if (20 <? gap) && (gap <? 45)
      then (totalDays + gap, count + 1)
      else (totalDays, count)
  | _ => (0, 0)
  end.

Definition predictedCycleLength (settings : UserSettings)
    (fl : list DailyLog) : Z :=
  if 2 <=? Z.of_nat (length fl) then
    let starts := periodStarts fl in
    if 2 <=? Z.of_nat (length starts) then
      let '(totalDays, count) := gapTotals starts in
      if 0 <? count then Math_round_div totalDays count
      else cycleLength settings
    else cycleLength settings
  else cycleLength settings.

(** ** Application state *)

Record AppState := mkState {
  user : option string;
  view : View;
  logs : list DailyLog;
  settings : UserSettings;
  loading : bool;
  sidebarOpen : bool;
  currentDay : Z;
  daysUntilNext : Z;
  isPeriodToday : bool
}.

Definition setLogs (v : list DailyLog) (st : AppState) : AppState :=
  mkState (user st) (view st) v (settings st) (loading st) (sidebarOpen st)
    (currentDay st) (daysUntilNext st) (isPeriodToday st).

Definition setSettings (v : UserSettings) (st : AppState) : AppState :=
  mkState (user st) (view st) (logs st) v (loading st) (sidebarOpen st)
    (currentDay st) (daysUntilNext st) (isPeriodToday st).

Definition setLoading (v : bool) (st : AppState) : AppState :=
  mkState (user st) (view st) (logs st) (settings st) v (sidebarOpen st)
    (currentDay st) (daysUntilNext st) (isPeriodToday st).

Definition setView (v : View) (st : AppState) : AppState :=
  mkState (user st) v (logs st) (settings st) (loading st) (sidebarOpen st)
    (currentDay st) (daysUntilNext st) (isPeriodToday st).

Definition setCurrentDay (v : Z) (st : AppState) : AppState :=
  mkState (user st) (view st) (logs st) (settings st) (loading st)
    (sidebarOpen st) v (daysUntilNext st) (isPeriodToday st).

Definition setDaysUntilNext (v : Z) (st : AppState) : AppState :=
  mkState (user st) (view st) (logs st) (settings st) (loading st)
    (sidebarOpen st) (currentDay st) v (isPeriodToday st).

Definition setIsPeriodToday (v : bool) (st : AppState) : AppState :=
  mkState (user st) (view st) (logs st) (settings st) (loading st)
    (sidebarOpen st) (currentDay st) (daysUntilNext st) v.

(** The initial values of the [useState] hooks. *)
Definition initialState : AppState :=
  mkState None dashboard [] (mkSettings 28 5) true false 1 28 false.

(** [calculateCycleStats(currentLogs)].  [settings] is the value captured
    by the closure that runs; it is passed explicitly.  Nothing in the
    [try] block throws on these inputs, so the [catch] branch does not
    appear. *)
Definition calculateCycleStats (settings : UserSettings) (clock : Clock)
    (currentLogs : list DailyLog) (st : AppState) : AppState :=
  match flowLogs currentLogs with
  | [] =>
      setIsPeriodToday false (setDaysUntilNext 28 (setCurrentDay 1 st))
  | (newest :: _) as fl =>
      let startDate := getTime (date newest) in
      let diffTime := Z.abs (nowMs clock - startDate) in
      let diffDays := Math_ceil_div diffTime (1000 * 60 * 60 * 24) in
      let predicted := predictedCycleLength settings fl in
      let periodToday :=
        match List.find (fun l => (date l =? todayStr clock) && flowTruthy l)
                currentLogs with
        | Some _ => true
        | None => false
        end in
      setIsPeriodToday periodToday
        (setDaysUntilNext (Z.max 0 (predicted - diffDays))
           (setCurrentDay diffDays st))
  end.

(** ** Calendar overlay *)

(** [Array.prototype.sort()] on date strings: ascending. *)
Fixpoint insertAsc (x : Z) (l : list Z) : list Z :=
  match l with
  | [] => [x]
  | y :: r => if x <? y then x :: y :: r else y :: insertAsc x r
  end.

Definition sortAsc (l : list Z) : list Z := foldr insertAsc [] l.

Definition periodDays (logs : list DailyLog) : list Z :=
  sortAsc (List.map date (List.filter flowTruthy logs)).

(** [periodDays.length > 0 ? periodDays[periodDays.length - 1] : null]. *)
Definition lastPeriodStart (logs : list DailyLog) : option Z :=
  match periodDays logs with
  | [] => None
  | d :: r => Some (List.last r d)
  end.

Record DateStatus := mkStatus {
  dateStr : Z;
  isPeriod : bool;
  isToday : bool;
  isPredicted : bool;
  isFertile : bool
}.

(** [getDateStatus(day)], taken at the date string the cell stands for
    ([formatDate(new Date(year, month, day))]). *)
Definition getDateStatus (logs : list DailyLog) (settings : UserSettings)
    (clock : Clock) (dateStr : Z) : DateStatus :=
  let log := List.find (fun l => date l =? dateStr) logs in
  let isPeriod := match log with Some l => flowTruthy l | None => false end in
  let isToday := dateStr =? todayStr clock in
  match lastPeriodStart logs with
  | None => mkStatus dateStr isPeriod isToday false false
  | Some lastPeriodStart =>
      let lastStart := getTime lastPeriodStart in
      let current := getTime dateStr in
      let diffTime := Z.abs (current - lastStart) in
      let diffDays := Math_ceil_div diffTime (1000 * 60 * 60 * 24) in
      if nowMs clock <? current then
        let nextCycleStart := jsRem diffDays (cycleLength settings) in
        let isPredicted :=
          nanTest nextCycleStart (fun v => v <? periodLength settings)
          && (0 <? diffDays)
          && (let daysSinceLast := getDaysBetween lastStart current in
              (cycleLength settings <=? daysSinceLast)
              && (daysSinceLast <? cycleLength settings + periodLength settings)) in
        let dayOfCycle := jsRem diffDays (cycleLength settings) in
        let ovulationDay := cycleLength settings - 14 in
        let isFertile :=
          nanTest dayOfCycle (fun v => ovulationDay - 4 <=? v)
          && nanTest dayOfCycle (fun v => v <=? ovulationDay + 1) in
        mkStatus dateStr isPeriod isToday isPredicted isFertile
      else mkStatus dateStr isPeriod isToday false false
  end.

(** ** Number values and their text *)

(** The Number values the settings form can hold: [NaN], the two
    infinities and the finite values that are integers.  [Finite z] is a
    Number value when [z] is exactly representable as a double
    ([isNumber] below); no fraction ever reaches the form, whose values
    come out of [parseInt] or out of the settings. *)
Inductive number :=
  | NaN
  | Infinity (negative : bool)
  | Finite (z : Z).

(** Rounding of a non-negative integer to the nearest double, ties to
    even: exact below [2^53], otherwise 53 significant bits are kept. *)
Definition roundMagnitude (a : Z) : Z :=
  if a <? 2 ^ 53 then a
  else
    let e := Z.log2 a - 52 in
    let q := a / 2 ^ e in
    let r := a mod 2 ^ e in
    let half := 2 ^ (e - 1) in
    let m :=
      if r <? half then q
      else if half <? r then q + 1
      else if Z.even q then q else q + 1 in
    m * 2 ^ e.

(** The Number value of a mathematical integer; magnitudes that round to
    [2^1024] or more overflow to an infinity. *)
Definition roundToDouble (z : Z) : number :=
  let a := roundMagnitude (Z.abs z) in
  if 2 ^ 1024 <=? a then Infinity (z <? 0) else Finite (Z.sgn z * a).

Definition isNumber (z : Z) : Prop := roundToDouble z = Finite z.

Definition roundsTo (x v : Z) : bool :=
  match roundToDouble x with
  | Finite y => y =? v
  | _ => false
  end.

(** The number of decimal digits of a positive integer. *)
Definition decimalDigits (a : Z) : Z := Z.of_nat (String.length (pretty a)).

(** The integer [s * 10^(n-k)] of [Number::toString] for a positive
    integer [v]: the decimal with the fewest significant digits [k] whose
    Number value is [v], and among those the one closest to [v] (the even
    [s] on a tie).  The search goes from the coarsest power of ten down;
    at [p] the only candidates are the two multiples of [10^p] around [v]. *)
Fixpoint shortestFrom (v : Z) (p : nat) : Z :=
  let unit := 10 ^ Z.of_nat p in
  let lo := v / unit * unit in
  let hi := lo + unit in
  let okLo := (0 <? lo) && roundsTo lo v in
  let okHi := roundsTo hi v in
  if okLo && okHi then
    if v - lo <? hi - v then lo
    else if hi - v <? v - lo then hi
    else if Z.even (lo / unit) then lo else hi
  else if okLo then lo
  else if okHi then hi
  else
    match p with
    | O => v
    | S p' => shortestFrom v p'
    end.

Definition shortestValue (v : Z) : Z :=
  shortestFrom v (Z.to_nat (decimalDigits v)).

Fixpoint dropTrailingZeros (s : string) : string :=
  match s with
  | EmptyString => EmptyString
  | String c r =>
      let r' := dropTrailingZeros r in
      if Ascii.eqb c "0" && (match r' with EmptyString => true | _ => false end)
      then EmptyString
      else String c r'
  end.

(** The exponent form [d.ddde+X] of a positive integer with more than 21
    digits. *)
Definition exponentForm (x : Z) : string :=
  let e := pretty (decimalDigits x - 1) in
  match dropTrailingZeros (pretty x) with
  | EmptyString => EmptyString
  | String d EmptyString => String d ("e+" +:+ e)
  | String d rest => String d ("." +:+ rest +:+ "e+" +:+ e)
  end.

Definition unsignedToString (v : Z) : string :=
  let x := shortestValue v in
  if x <? 10 ^ 21 then pretty x else exponentForm x.

(** [String(n)] (and [`${n}`]) for a finite integer Number value [n]:
    the shortest digits that read back as [n], written out in full with
    up to 21 digits and in exponent form beyond. *)
Definition String_ (n : Z) : string :=
  match n with
  | Z0 => "0"
  | Zpos _ => unsignedToString n
  | Zneg _ => "-" +:+ unsignedToString (- n)
  end.

(** [String(x)] on any value of the form. *)
Definition Number_toString (x : number) : string :=
  match x with
  | NaN => "NaN"
  | Infinity false => "Infinity"
  | Infinity true => "-Infinity"
  | Finite z => String_ z
  end.

(** A JavaScript string is a sequence of UTF-16 code units. *)
Fixpoint codeUnits (s : string) : list N :=
  match s with
  | EmptyString => []
  | String c r => N_of_ascii c :: codeUnits r
  end.

(** ** [parseInt] *)

(** White space and line terminators, which [parseInt] skips in front. *)
Definition isWhiteSpace (c : N) : bool :=
  ((9 <=? c) && (c <=? 13) || (c =? 32) || (c =? 160) || (c =? 5760)
   || (8192 <=? c) && (c <=? 8202) || (c =? 8232) || (c =? 8233)
   || (c =? 8239) || (c =? 8287) || (c =? 12288) || (c =? 65279))%N.

Fixpoint trimStart (s : list N) : list N :=
  match s with
  | c :: r => if isWhiteSpace c then trimStart r else s
  | [] => []
  end.

(** The value of a code unit as a digit: [0-9], [a-z] and [A-Z]. *)
Definition digitValue (c : N) : option Z :=
  if ((48 <=? c) && (c <=? 57))%N then Some (Z.of_N (c - 48))
  else if ((97 <=? c) && (c <=? 122))%N then Some (Z.of_N (c - 87))
  else if ((65 <=? c) && (c <=? 90))%N then Some (Z.of_N (c - 55))
  else None.

Definition radixDigit (radix : Z) (c : N) : option Z :=
  match digitValue c with
  | Some d => if d <? radix then Some d else None
  | None => None
  end.

(** The digit loop: reads digits of the radix and stops at the first
    other code unit; [None] while no digit has been read. *)
Fixpoint parseDigits (radix : Z) (s : list N) (acc : option Z) : option Z :=
  match s with
  | [] => acc
  | c :: r =>
      match radixDigit radix c with
      | Some d => parseDigits radix r (Some (radix * default 0 acc + d))
      | None => acc
      end
  end.

(** The radix and the rest after an optional [0x] or [0X]. *)
Definition stripPrefix (s : list N) : Z * list N :=
  match s with
  | z :: x :: r =>
      if ((z =? 48) && ((x =? 120) || (x =? 88)))%N then (16, r) else (10, s)
  | _ => (10, s)
  end.

(** [parseInt(inputString)] without a radix argument: leading white
    space, an optional sign, an optional [0x], then digits; [NaN] when no
    digit follows, otherwise the Number value of the integer read (a
    negative zero reads as zero, which is how every use here treats it). *)
Definition parseInt (inputString : list N) : number :=
  let s := trimStart inputString in
  let negative := match s with c :: _ => (c =? 45)%N | [] => false end in
  let s :=
    match s with
    | c :: r => if ((c =? 43) || (c =? 45))%N then r else s
    | [] => s
    end in
  let '(radix, digits) := stripPrefix s in
  match parseDigits radix digits None with
  | None => NaN
  | Some mathInt =>
      if mathInt =? 0 then Finite 0
      else roundToDouble (if negative then - mathInt else mathInt)
  end.

(** ** Settings form *)

(** [SettingsForm.handleSave] with the form state [(cycleLength,
    periodLength)]: the two numbers of the object handed to [onSave]. *)
Definition SettingsForm_handleSave (cycleLength periodLength : number)
    : number * number :=
  (parseInt (codeUnits (Number_toString cycleLength)),
   parseInt (codeUnits (Number_toString periodLength))).

(** The object as a settings record.  [None] stands for a field that is
    [NaN] or infinite, which the settings record cannot hold. *)
Definition asSettings (fields : number * number) : option UserSettings :=
  match fields with
  | (Finite c, Finite p) => Some (mkSettings c p)
  | _ => None
  end.

(** ** Remote store and write handlers *)

(** The two per-user locations the application writes: the [logs]
    collection, keyed by document id, and the [settings/preferences]
    document with its fields. *)
Record Firestore := mkStore {
  logDocs : gmap Z LogData;
  settingsDoc : option (gmap string Z)
}.

Record World := mkWorld {
  app : AppState;
  remote : Firestore
}.

Definition initialWorld : World := mkWorld initialState (mkStore ∅ None).

(** [setDoc(docRef, newSettings)]: without [merge] the document becomes
    exactly the object written. *)
Definition settingsFields (s : UserSettings) : gmap string Z :=
  <["cycleLength"%string := cycleLength s]>
    (<["periodLength"%string := periodLength s]> ∅).

Definition handleSaveSettings (newSettings : UserSettings) (w : World)
    : World :=
  match user (app w) with
  | None => w
  | Some _ =>
      mkWorld (setView dashboard (app w))
        (mkStore (logDocs (remote w)) (Some (settingsFields newSettings)))
  end.

(** Pressing Save in the settings form. *)
Definition saveSettingsForm (cycleLength periodLength : number) (w : World)
    : option World :=
  (fun s => handleSaveSettings s w)
    <$> asSettings (SettingsForm_handleSave cycleLength periodLength).

(** [{ ...l, ...data }]: keys of [data] win, the others are kept. *)
Definition mergeIntoLog (l : DailyLog) (data : LogData) : DailyLog :=
  mkLog (id l) (d_date data)
    (default (flow l) (d_flow data))
    (default (mood l) (d_mood data))
    (default (symptoms l) (d_symptoms data))
    (createdAt l).

(** [{ id: dateStr, createdAt: Timestamp.now(), ...data } as DailyLog].
    A key missing from [data] reads as [null] (an empty list for
    [symptoms]), which is how every reader of these fields treats it. *)
Definition newLog (clock : Clock) (data : LogData) : DailyLog :=
  mkLog (d_date data) (d_date data)
    (default None (d_flow data))
    (default None (d_mood data))
    (default [] (d_symptoms data))
    (Some (nowMs clock)).

(** The updater passed to [setLogs] in [handleLogSave]. *)
Definition optimisticUpdate (clock : Clock) (data : LogData)
    (prev : list DailyLog) : list DailyLog :=
  let dateStr := d_date data in
  match List.find (fun l => date l =? dateStr) prev with
  | Some _ =>
      List.map (fun l => if date l =? dateStr then mergeIntoLog l data else l)
        prev
  | None => newLog clock data :: prev
  end.

(** [!data.flow && !data.mood && (!data.symptoms || data.symptoms.length === 0)]:
    a missing key, [null] and the empty string are falsy; an array is
    truthy even when empty. *)
Definition clearsAllData (data : LogData) : bool :=
  negb (match d_flow data with Some (Some _) => true | _ => false end)
  && negb (match d_mood data with
           | Some (Some m) => negb (String.eqb m "")
           | _ => false
           end)
  && match d_symptoms data with
     | None => true
     | Some l => (length l =? 0)%nat
     end.

Definition orElse {A} (new old : option A) : option A :=
  match new with Some v => Some v | None => old end.

(** [setDoc(docRef, { ...data }, { merge: true })]: creates the document
    or overwrites just the keys present in [data]. *)
Definition mergeDoc (old : option LogData) (data : LogData) : LogData :=
  match old with
  | None => data
  | Some o =>
      mkData (d_date data)
        (orElse (d_flow data) (d_flow o))
        (orElse (d_mood data) (d_mood o))
        (orElse (d_symptoms data) (d_symptoms o))
  end.

(** The remote half of [handleLogSave]. *)
Definition writeLog (data : LogData) (docs : gmap Z LogData)
    : gmap Z LogData :=
  let dateStr := d_date data in
  if clearsAllData data then delete dateStr docs
  else <[dateStr := mergeDoc (docs !! dateStr) data]> docs.

Definition handleLogSave (clock : Clock) (data : LogData) (w : World)
    : World :=
  let st := setLogs (optimisticUpdate clock data (logs (app w))) (app w) in
  match user (app w) with
  | None => mkWorld st (remote w)
  | Some _ =>
      mkWorld st
        (mkStore (writeLog data (logDocs (remote w)))
           (settingsDoc (remote w)))
  end.

Definition handleTogglePeriod (clock : Clock) (date0 : Z) (w : World)
    : World :=
  match List.find (fun l => date l =? date0) (logs (app w)) with
  | Some existing =>
      if flowTruthy existing
      then handleLogSave clock (mkData date0 (Some None) None None) w
      else handleLogSave clock (mkData date0 (Some (Some Medium)) None None) w
  | None => handleLogSave clock (mkData date0 (Some (Some Medium)) None None) w
  end.

(** ** Subscription callbacks on the log collection *)

(** [{ id: d.id, ...d.data() } as DailyLog]. *)
Definition docToLog (kd : Z * LogData) : DailyLog :=
  mkLog (fst kd) (d_date (snd kd))
    (default None (d_flow (snd kd)))
    (default None (d_mood (snd kd)))
    (default [] (d_symptoms (snd kd)))
    None.

(** The query [orderBy('date', 'desc')] over the collection. *)
Definition queryLogs (docs : gmap Z LogData) : list DailyLog :=
  sortDesc (List.map docToLog (map_to_list docs)).

(** The success callback; [captured] is the settings value held by the
    [calculateCycleStats] closure the subscription was created with. *)
Definition onLogsSnapshot (captured : UserSettings) (clock : Clock)
    (fetchedLogs : list DailyLog) (st : AppState) : AppState :=
  setLoading false
    (calculateCycleStats captured clock fetchedLogs (setLogs fetchedLogs st)).

(** The error callback: [console.error] and [setLoading(false)]. *)
Definition onLogsSnapshotError (st : AppState) : AppState :=
  setLoading false st.

Definition failLogsSubscription (w : World) : World :=
  mkWorld (onLogsSnapshotError (app w)) (remote w).

(** ** Runs of user operations *)

Inductive Op :=
  | OpSave (data : LogData)
  | OpToggle (dateStr : Z)
  | OpSnapshot (captured : UserSettings).

Definition step (clock : Clock) (w : World) (op : Op) : World :=
  match op with
  | OpSave data => handleLogSave clock data w
  | OpToggle d => handleTogglePeriod clock d w
  | OpSnapshot captured =>
      mkWorld (onLogsSnapshot captured clock (queryLogs (logDocs (remote w)))
                 (app w))
        (remote w)
  end.

(** Each operation happens at its own time. *)
Definition run (w : World) (ops : list (Clock * Op)) : World :=
  fold_left (fun w co => step (fst co) w (snd co)) ops w.


(** ** Vocabulary of the statements *)

(** The dates of one period group: neighbours in the sorted list of flow
    dates are at most 7 days apart. *)
Fixpoint onePeriod (ds : list Z) : Prop :=
  match ds with
  | a :: ((b :: _) as tl) => Z.abs (a - b) <= 7 /\ onePeriod tl
  | _ => True
  end.

(** The flow dates of [currentLogs], newest first, fall into exactly two
    groups [a :: g1] and [b :: g2] split by a gap of more than 7 days.
    [a] and [b] are the dates the prediction records as the two period
    starts: the list is walked newest first, so each is the most recent
    flow date of its group. *)
Definition twoPeriodGroups (currentLogs : list DailyLog)
    (a : Z) (g1 : list Z) (b : Z) (g2 : list Z) : Prop :=
  List.map date (flowLogs currentLogs) = (a :: g1) ++ (b :: g2)
  /\ onePeriod (a :: g1)
  /\ onePeriod (b :: g2)
  /\ 7 < Z.abs (List.last g1 a - b).

(** The reading of the prediction rule with the closed interval [[20,45]]:
    every start-to-start gap from 20 to 45 days is the predicted cycle
    length. *)
Definition closedIntervalRule : Prop :=
  forall (s : UserSettings) (clock : Clock) (currentLogs : list DailyLog)
         (st : AppState) (a : Z) (g1 : list Z) (b : Z) (g2 : list Z),
    twoPeriodGroups currentLogs a g1 b g2 ->
    20 <= Z.abs (a - b) <= 45 ->
    let st' := calculateCycleStats s clock currentLogs st in
    daysUntilNext st' = Z.max 0 (Z.abs (a - b) - currentDay st').

(** The reading of the fallback with "fewer than two flow logs": whenever
    the list has fewer than two, days-until-next is computed from the
    configured cycle length. *)
Definition fewerThanTwoRule : Prop :=
  forall (s : UserSettings) (clock : Clock) (currentLogs : list DailyLog)
         (st : AppState),
    (length (flowLogs currentLogs) < 2)%nat ->
    let st' := calculateCycleStats s clock currentLogs st in
    daysUntilNext st' = Z.max 0 (cycleLength s - currentDay st').

(** The flow the local list shows for a date ([log?.flow]). *)
Definition localFlow (logs : list DailyLog) (dateStr : Z) : option Flow :=
  match List.find (fun l => date l =? dateStr) logs with
  | Some l => flow l
  | None => None
  end.

(** The save, merged into what is stored for its date, would leave a
    record with no flow, no mood and no symptoms. *)
Definition wouldLeaveEmpty (old : option LogData) (data : LogData) : bool :=
  clearsAllData (mergeDoc old data).

(** What the calendar's quick toggle sends to [handleLogSave]. *)
Definition togglePayload (logs : list DailyLog) (dateStr : Z) : LogData :=
  match localFlow logs dateStr with
  | Some _ => mkData dateStr (Some None) None None
  | None => mkData dateStr (Some (Some Medium)) None None
  end.

(** The flow the stored document of a date holds, if any. *)
Definition remoteFlow (docs : gmap Z LogData) (dateStr : Z) : option Flow :=
  match docs !! dateStr with
  | Some doc => default None (d_flow doc)
  | None => None
  end.

(** At most one log per calendar date, locally and in the collection. *)
Definition uniqueDates (w : World) : Prop :=
  NoDup (List.map date (logs (app w)))
  /\ forall k doc, logDocs (remote w) !! k = Some doc -> d_date doc = k.

(** ** [formatDate] *)

(** The local calendar fields of a [Date]: [getFullYear()], [getMonth()]
    (0 for January) and [getDate()]. *)
Record LocalDate := mkLocalDate {
  getFullYear : Z;
  getMonth : Z;
  getDate : Z
}.

Fixpoint repeatChar (n : nat) (c : ascii) : string :=
  match n with
  | O => EmptyString
  | S k => String c (repeatChar k c)
  end.

(** [s.padStart(targetLength, c)] with a pad string of one character. *)
Definition padStart (targetLength : nat) (c : ascii) (s : string) : string :=
  repeatChar (targetLength - String.length s) c +:+ s.

(** [formatDate(date)]. *)
Definition formatDate (dt : LocalDate) : string :=
  let y := getFullYear dt in
  let m := padStart 2 "0" (String_ (getMonth dt + 1)) in
  let d := padStart 2 "0" (String_ (getDate dt)) in
  String_ y +:+ "-" +:+ m +:+ "-" +:+ d.

(** The order of [Array.prototype.sort()] and of [<] on strings: by code
    unit, a proper prefix first. *)
Definition stringLt (s t : string) : Prop := String.compare s t = Lt.

(** Calendar order on the fields of two dates. *)
Definition dateBefore (a b : LocalDate) : Prop :=
  getFullYear a < getFullYear b
  \/ (getFullYear a = getFullYear b
      /\ (getMonth a < getMonth b
          \/ (getMonth a = getMonth b /\ getDate a < getDate b))).

(** A date of the four-digit years. *)
Definition plainDate (dt : LocalDate) : Prop :=
  1000 <= getFullYear dt <= 9999
  /\ 0 <= getMonth dt <= 11
  /\ 1 <= getDate dt <= 31.

(** ** Calendar grid *)

(** The array [days] of the calendar: 42 cells, cell [i] holding the day
    [i - startDay + 1] when that is a day of the month and [null]
    otherwise. *)
Definition days (startDay daysInMonth : Z) : list (option Z) :=
  List.map
    (fun i =>
       let day := Z.of_nat i - startDay + 1 in
       if (0 <? day) && (day <=? daysInMonth) then Some day else None)
    (List.seq 0 42).

(** ** Daily logger form *)

Record LoggerState := mkLogger {
  lg_mood : option string;
  lg_flow : option Flow;
  lg_symptoms : list string
}.

(** [existingLog?.mood || null]: the empty string is falsy. *)
Definition moodOrNull (existingLog : option DailyLog) : option string :=
  match existingLog with
  | Some l =>
      match mood l with
      | Some m => if String.eqb m "" then None else Some m
      | None => None
      end
  | None => None
  end.

(** The form state the logger starts from (and resets to in its effect):
    [existingLog?.mood || null], [existingLog?.flow || null],
    [existingLog?.symptoms || []]. *)
Definition DailyLogger_init (existingLog : option DailyLog) : LoggerState :=
  mkLogger (moodOrNull existingLog)
    (match existingLog with Some l => flow l | None => None end)
    (match existingLog with Some l => symptoms l | None => [] end).

(** [toggleSymptom(sym)] on the symptoms of the form. *)
Definition toggleSymptom (sym : string) (symptoms : list string)
    : list string :=
  if existsb (String.eqb sym) symptoms
  then List.filter (fun s => negb (String.eqb s sym)) symptoms
  else symptoms ++ [sym].

(** [handleSave] of the logger: [onSave({ date, mood, flow, symptoms })]. *)
Definition DailyLogger_handleSave (dateStr : Z) (st : LoggerState)
    : LogData :=
  mkData dateStr (Some (lg_flow st)) (Some (lg_mood st))
    (Some (lg_symptoms st)).

(** The logger always sends the three keys. *)
Definition fullPayload (data : LogData) : Prop :=
  is_Some (d_flow data) /\ is_Some (d_mood data) /\ is_Some (d_symptoms data).

(** ** Settings input and settings subscription *)

(** The [onChange] of a settings input: [parseInt(e.target.value) || 0];
    [NaN] and zero are falsy. *)
Definition SettingsForm_onChange (value : list N) : number :=
  match parseInt value with
  | NaN => Finite 0
  | Finite z => if z =? 0 then Finite 0 else Finite z
  | Infinity negative => Infinity negative
  end.

(** [snap.data() as UserSettings].  [None] stands for a document that
    lacks one of the two fields, which the settings record cannot hold. *)
Definition readSettings (doc : gmap string Z) : option UserSettings :=
  match doc !! "cycleLength"%string, doc !! "periodLength"%string with
  | Some c, Some p => Some (mkSettings c p)
  | _, _ => None
  end.

(** The callback of the settings subscription: take the document when it
    exists, create it with the defaults otherwise. *)
Definition onSettingsSnapshot (w : World) : option World :=
  match settingsDoc (remote w) with
  | Some doc =>
      (fun s => mkWorld (setSettings s (app w)) (remote w))
        <$> readSettings doc
  | None =>
      Some (mkWorld (app w)
              (mkStore (logDocs (remote w))
                 (Some (settingsFields (mkSettings 28 5)))))
  end.

(** ** The data effect and the settings its callbacks see *)

Definition setUser (v : option string) (st : AppState) : AppState :=
  mkState v (view st) (logs st) (settings st) (loading st) (sidebarOpen st)
    (currentDay st) (daysUntilNext st) (isPeriodToday st).

(** The auth listener: [setUser(u); setLoading(false)]. *)
Definition onAuthStateChanged (u : option string) (st : AppState) : AppState :=
  setLoading false (setUser u st).

(** A running app.  [subscribed] is [None] while the data effect holds no
    subscription; otherwise it is the [settings] of the render in which
    the effect subscribed: the callbacks registered then, and the
    [calculateCycleStats] they call, are closures of that render and keep
    reading that value. *)
Record Session := mkSession {
  world : World;
  subscribed : option UserSettings
}.

Definition initialSession : Session := mkSession initialWorld None.

(** The body of the data effect at a render: nothing without a user,
    otherwise both subscriptions, made by the closures of this render. *)
Definition dataEffect (st : AppState) : option UserSettings :=
  match user st with
  | Some _ => Some (settings st)
  | None => None
  end.

(** An auth event.  The effect has the dependency list [[user]]: it is
    cleaned up and run again only after a render in which [user] has
    changed. *)
Definition authChanged (u : option string) (s : Session) : Session :=
  let st := onAuthStateChanged u (app (world s)) in
  mkSession (mkWorld st (remote (world s)))
    (if decide (u = user (app (world s))) then subscribed s
     else dataEffect st).

(** The settings subscription delivers the document. *)
Definition deliverSettings (s : Session) : option Session :=
  match subscribed s with
  | Some _ =>
      (fun w => mkSession w (subscribed s)) <$> onSettingsSnapshot (world s)
  | None => Some s
  end.

(** The logs subscription delivers the collection. *)
Definition deliverLogs (clock : Clock) (s : Session) : Session :=
  match subscribed s with
  | Some captured =>
      mkSession (step clock (world s) (OpSnapshot captured)) (subscribed s)
  | None => s
  end.

(** ** The clock of a time zone *)


(** ** Vocabulary of the further statements *)

(** Two logs show the same content for their date. *)
Definition sameContent (l l' : DailyLog) : Prop :=
  date l = date l' /\ flow l = flow l' /\ mood l = mood l'
  /\ symptoms l = symptoms l'.

(** The three statistics the dashboard shows. *)
Definition stats (st : AppState) : Z * Z * bool :=
  (currentDay st, daysUntilNext st, isPeriodToday st).

(** The reading of the settings claim for every pair of integers: typing
    the decimal numerals of [c] and [p] into the two inputs and saving
    stores [c] and [p]. *)
Definition everyIntegerPairPersisted : Prop :=
  forall (c p : Z) (w : World) (uid : string),
    user (app w) = Some uid ->
    exists w' doc,
      saveSettingsForm (SettingsForm_onChange (codeUnits (pretty c)))
        (SettingsForm_onChange (codeUnits (pretty p))) w = Some w'
      /\ settingsDoc (remote w') = Some doc
      /\ doc !! "cycleLength"%string = Some c
      /\ doc !! "periodLength"%string = Some p.

(** * Properties *)

(** ** Arithmetic of the date helpers *)

Lemma msPerDay_pos : 0 < msPerDay.
Proof. reflexivity. Qed.

Lemma msPerDay_value : 1000 * 60 * 60 * 24 = msPerDay.
Proof. reflexivity. Qed.

(** Two parsed dates are a whole number of days apart, so the quotient
    the source takes is exact. *)
Lemma day_gap_exact (a b : Z) :
  Z.abs ((getTime a - getTime b) / msPerDay) = Z.abs (a - b).
Proof.
  unfold getTime. rewrite <- Z.mul_sub_distr_r.
  rewrite Z.div_mul by (pose proof msPerDay_pos; lia). reflexivity.
Qed.

(** [Math.ceil] of a quotient is the least integer at or above it. *)
Lemma Math_ceil_div_spec (a b : Z) :
  0 < b ->
  (Math_ceil_div a b - 1) * b < a <= Math_ceil_div a b * b.
Proof.
  intros Hb. unfold Math_ceil_div.
  pose proof (Z.div_mod (- a) b ltac:(lia)) as Hdm.
  pose proof (Z.mod_pos_bound (- a) b Hb) as Hm.
  nia.
Qed.

Lemma Math_ceil_div_unique (a b n : Z) :
  0 < b -> (n - 1) * b < a <= n * b -> Math_ceil_div a b = n.
Proof.
  intros Hb Hn. pose proof (Math_ceil_div_spec a b Hb) as Hc. nia.
Qed.

Lemma Math_ceil_div_days (n : Z) : Math_ceil_div (n * msPerDay) msPerDay = n.
Proof.
  apply Math_ceil_div_unique; [apply msPerDay_pos|].
  pose proof msPerDay_pos. nia.
Qed.

Lemma Math_round_div_one (a : Z) : Math_round_div a 1 = a.
Proof.
  unfold Math_round_div.
  replace (2 * a + 1) with (1 + a * (2 * 1)) by lia.
  rewrite Z.div_add by lia. reflexivity.
Qed.

Lemma Math_round_div_days (n : Z) :
  Math_round_div (n * msPerDay) msPerDay = n.
Proof.
  unfold Math_round_div.
  replace (2 * (n * msPerDay) + msPerDay)
    with (msPerDay + n * (2 * msPerDay)) by lia.
  rewrite Z.div_add by (pose proof msPerDay_pos; lia).
  rewrite Z.div_small by (pose proof msPerDay_pos; lia). lia.
Qed.

(** ** The sort used by the statistics *)

Lemma sortDesc_singleton (e : DailyLog) : sortDesc [e] = [e].
Proof. reflexivity. Qed.

Lemma insertDesc_perm (x : DailyLog) (l : list DailyLog) :
  Permutation (insertDesc x l) (x :: l).
Proof.
  induction l as [|y r IH]; simpl; [reflexivity|].
  destruct (_ <=? 0); [reflexivity|].
  rewrite IH. apply perm_swap.
Qed.

Lemma sortDesc_perm (l : list DailyLog) : Permutation (sortDesc l) l.
Proof.
  induction l as [|x l IH]; simpl; [reflexivity|].
  rewrite insertDesc_perm. by constructor.
Qed.

Lemma filter_none_of_no_flow (currentLogs : list DailyLog) :
  Forall (fun l => flow l = None) currentLogs ->
  List.filter flowNotNull currentLogs = [].
Proof.
  induction 1 as [|l r Hl _ IH]; simpl; [reflexivity|].
  unfold flowNotNull at 1. rewrite Hl. exact IH.
Qed.

(** ** Cycle statistics *)

(** One flow log: no prediction from history, the settings decide. *)
Lemma single_flow_entry_stats_general
    (s : UserSettings) (clock : Clock) (currentLogs : list DailyLog)
    (e : DailyLog) (st : AppState) :
  List.filter flowNotNull currentLogs = [e] ->
  let st' := calculateCycleStats s clock currentLogs st in
  predictedCycleLength s (flowLogs currentLogs) = cycleLength s
  /\ daysUntilNext st' = Z.max 0 (cycleLength s - currentDay st').
Proof.
  intros Hone. unfold calculateCycleStats, flowLogs. rewrite Hone.
  rewrite sortDesc_singleton. split; reflexivity.
Qed.

(** C1 fails in the running app.  The settings document holds a cycle
    length of 30 and the collection a single flow entry, two days old.
    After sign-in the settings snapshot puts 30 into the state and the
    logs snapshot finds day 2 of the cycle; but the [calculateCycleStats]
    it calls still reads the settings of the render that subscribed, the
    initial 28, and leaves 26 days until the next period, where the
    configured cycle length minus the current day is 28.  The two
    snapshots give the same in either order. *)
Theorem stale_settings_single_flow_entry :
  let e := mkData 99 (Some (Some Medium)) None None in
  let store := mkStore {[ 99 := e ]} (Some (settingsFields (mkSettings 30 5))) in
  let clock := mkClock (101 * msPerDay) 101 in
  let s0 := mkSession (mkWorld initialState store) None in
  let s1 := authChanged (Some "uid"%string) s0 in
  exists s2,
    deliverSettings s1 = Some s2
    /\ deliverSettings (deliverLogs clock s1) = Some (deliverLogs clock s2)
    /\ let st := app (world (deliverLogs clock s2)) in
       List.map date (List.filter flowNotNull (logs st)) = [99]
       /\ settings st = mkSettings 30 5
       /\ currentDay st = 2
       /\ daysUntilNext st = 26
       /\ Z.max 0 (cycleLength (settings st) - currentDay st) = 28.
Proof.
  intros e store clock s0 s1.
  assert (Hread : readSettings (settingsFields (mkSettings 30 5))
                  = Some (mkSettings 30 5)).
  { unfold readSettings, settingsFields. cbn [cycleLength periodLength].
    rewrite lookup_insert_eq.
    by rewrite lookup_insert_ne, lookup_insert_eq. }
  assert (Hquery : queryLogs {[ 99 := e ]} = [docToLog (99, e)]).
  { unfold queryLogs. by rewrite map_to_list_singleton. }
  assert (Hs1 : s1 = mkSession
                       (mkWorld (onAuthStateChanged (Some "uid"%string)
                                   initialState) store)
                       (Some (mkSettings 28 5))) by reflexivity.
  rewrite Hs1.
  unfold deliverSettings, deliverLogs, onSettingsSnapshot, step.
  cbn [subscribed world remote app settingsDoc logDocs store].
  rewrite Hread, Hquery.
  cbn [fmap option_fmap option_map subscribed world remote app settingsDoc
       logDocs].
  eexists. split; [reflexivity|].
  cbn [subscribed world remote app logDocs store]. rewrite Hquery.
  split; [reflexivity|]. repeat split.
Qed.

(** C9. Without any flow entry the statistics are the fixed defaults: day
    1, 28 days until the next period whatever the settings say, and no
    period today. *)
Theorem no_flow_entries_defaults
    (s : UserSettings) (clock : Clock) (currentLogs : list DailyLog)
    (st : AppState) :
  Forall (fun l => flow l = None) currentLogs ->
  let st' := calculateCycleStats s clock currentLogs st in
  currentDay st' = 1 /\ daysUntilNext st' = 28 /\ isPeriodToday st' = false.
Proof.
  intros Hnone. unfold calculateCycleStats, flowLogs.
  rewrite (filter_none_of_no_flow _ Hnone). simpl. auto.
Qed.

Lemma no_flow_entries_defaults_witness :
  let quiet := mkLog 50 50 None (Some "Happy"%string) [] None in
  let st' := calculateCycleStats (mkSettings 35 7) (mkClock 0 0) [quiet]
               (setDaysUntilNext 3 (setCurrentDay 9 initialState)) in
  currentDay st' = 1 /\ daysUntilNext st' = 28 /\ isPeriodToday st' = false.
Proof.
  intros quiet st'.
  apply (no_flow_entries_defaults (mkSettings 35 7) (mkClock 0 0) [quiet]).
  repeat constructor.
Defined.

(** ** Period groups and the predicted cycle length *)

Lemma last_cons_default {A} (l : list A) : forall x d,
  List.last (x :: l) d = List.last l x.
Proof.
  induction l as [|y l IH]; intros x d; [reflexivity|].
  change (List.last (x :: y :: l) d) with (List.last (y :: l) d).
  by rewrite !IH.
Qed.

Section PeriodGroups.

Implicit Types (fl g rest : list DailyLog) (prev : DailyLog).

Lemma laterStarts_cons prev (curr : DailyLog) rest :
  laterStarts prev (curr :: rest) =
    (if 7 <? Z.abs (date prev - date curr) then [date curr] else [])
    ++ laterStarts curr rest.
Proof.
  change (laterStarts prev (curr :: rest)) with
    ((if 7 <? Z.abs ((getTime (date prev) - getTime (date curr)) / msPerDay)
      then [date curr] else []) ++ laterStarts curr rest).
  by rewrite day_gap_exact.
Qed.

(** Inside a group the first loop pushes nothing. *)
Lemma laterStarts_within_group g : forall prev rest,
  onePeriod (date prev :: List.map date g) ->
  laterStarts prev (g ++ rest) = laterStarts (List.last g prev) rest.
Proof.
  induction g as [|curr g IH]; intros prev rest Hgroup; [reflexivity|].
  destruct Hgroup as [Hclose Hgroup].
  rewrite <- app_comm_cons, laterStarts_cons.
  destruct (Z.ltb_spec 7 (Z.abs (date prev - date curr))); [lia|].
  rewrite app_nil_l, (IH curr rest Hgroup).
  by rewrite last_cons_default.
Qed.

Lemma laterStarts_one_group g prev :
  onePeriod (date prev :: List.map date g) -> laterStarts prev g = [].
Proof.
  intros Hgroup.
  rewrite <- (app_nil_r g), (laterStarts_within_group g prev [] Hgroup).
  reflexivity.
Qed.

Lemma last_map_date g prev :
  List.last (List.map date g) (date prev) = date (List.last g prev).
Proof.
  revert prev. induction g as [|x g IH]; intros prev; [reflexivity|].
  cbn [List.map]. by rewrite !last_cons_default, IH.
Qed.

(** Two groups give exactly two starts: the first date of each group. *)
Lemma periodStarts_two_groups fl (a : Z) (g1 : list Z) (b : Z) (g2 : list Z) :
  List.map date fl = (a :: g1) ++ (b :: g2) ->
  onePeriod (a :: g1) -> onePeriod (b :: g2) ->
  7 < Z.abs (List.last g1 a - b) ->
  periodStarts fl = [a; b] /\ (2 <= length fl)%nat.
Proof.
  intros Hdates H1 H2 Hgap.
  destruct fl as [|la fl]; [discriminate|].
  cbn [List.map app] in Hdates. injection Hdates as Ha Hrest.
  apply map_eq_app in Hrest as (l1 & rest & -> & Hl1 & Hrest).
  destruct rest as [|lb l2]; [discriminate|].
  cbn [List.map] in Hrest. injection Hrest as Hb Hl2.
  subst a g1 b g2. split.
  - cbn [periodStarts]. f_equal.
    rewrite (laterStarts_within_group l1 la (lb :: l2) H1).
    rewrite laterStarts_cons, <- last_map_date.
    destruct (Z.ltb_spec 7
      (Z.abs (List.last (List.map date l1) (date la) - date lb))); [|lia].
    rewrite (laterStarts_one_group l2 lb H2). reflexivity.
  - cbn [length]. rewrite length_app. cbn [length]. lia.
Qed.

End PeriodGroups.

Lemma predictedCycleLength_two_groups (s : UserSettings)
    (fl : list DailyLog) (a : Z) (g1 : list Z) (b : Z) (g2 : list Z) :
  List.map date fl = (a :: g1) ++ (b :: g2) ->
  onePeriod (a :: g1) -> onePeriod (b :: g2) ->
  7 < Z.abs (List.last g1 a - b) ->
  predictedCycleLength s fl =
    if (20 <? Z.abs (a - b)) && (Z.abs (a - b) <? 45)
    then Z.abs (a - b) else cycleLength s.
Proof.
  intros Hdates H1 H2 Hgap.
  destruct (periodStarts_two_groups fl a g1 b g2 Hdates H1 H2 Hgap)
    as [Hstarts Hlen].
  unfold predictedCycleLength. rewrite Hstarts.
  destruct (Z.leb_spec 2 (Z.of_nat (length fl))); [|lia].
  cbn [length gapTotals]. rewrite day_gap_exact.
  destruct ((20 <? Z.abs (a - b)) && (Z.abs (a - b) <? 45)); simpl.
  - apply Math_round_div_one.
  - reflexivity.
Qed.


(** What a logs snapshot stores when there is a flow log. *)
Lemma onLogsSnapshot_next (captured : UserSettings) (clock : Clock)
    (fetchedLogs : list DailyLog) (st : AppState) :
  flowLogs fetchedLogs <> [] ->
  let st' := onLogsSnapshot captured clock fetchedLogs st in
  settings st' = settings st
  /\ daysUntilNext st' =
       Z.max 0 (predictedCycleLength captured (flowLogs fetchedLogs)
                - currentDay st').
Proof.
  intros Hne. unfold onLogsSnapshot, calculateCycleStats.
  destruct (flowLogs fetchedLogs) as [|newest fl]; [congruence|].
  split; reflexivity.
Qed.

(** C2, as the code has it.  A logs snapshot whose flow dates form exactly
    two period groups, both spanning the same number of days, takes the
    start-to-start gap as the predicted cycle length when that gap lies
    strictly between 20 and 45 days.  A gap of at most 20 or at least 45
    days is discarded, and the configured cycle length is used, as it is
    with a single flow log; this is said for a snapshot whose callback
    holds the settings the state holds. *)
Theorem two_groups_prediction
    (captured : UserSettings) (clock : Clock) (currentLogs : list DailyLog)
    (st : AppState) (a : Z) (g1 : list Z) (b : Z) (g2 : list Z) :
  twoPeriodGroups currentLogs a g1 b g2 ->
  a - List.last g1 a = b - List.last g2 b ->
  let gap := Z.abs (List.last g1 a - List.last g2 b) in
  let st' := onLogsSnapshot captured clock currentLogs st in
  (20 < gap < 45 ->
     predictedCycleLength captured (flowLogs currentLogs) = gap
     /\ daysUntilNext st' = Z.max 0 (gap - currentDay st'))
  /\ (gap <= 20 \/ 45 <= gap ->
      captured = settings st ->
      daysUntilNext st'
      = Z.max 0 (cycleLength (settings st') - currentDay st'))
  /\ (forall (logs1 : list DailyLog) (e : DailyLog),
        List.filter flowNotNull logs1 = [e] ->
        captured = settings st ->
        let st1 := onLogsSnapshot captured clock logs1 st in
        daysUntilNext st1
        = Z.max 0 (cycleLength (settings st1) - currentDay st1)).
Proof.
  intros (Hdates & H1 & H2 & Hsplit) Hspan gap st'.
  assert (Hgap : gap = Z.abs (a - b)) by (unfold gap; f_equal; lia).
  assert (Hne : flowLogs currentLogs <> []).
  { intros Hnil. rewrite Hnil in Hdates. discriminate. }
  destruct (onLogsSnapshot_next captured clock currentLogs st Hne)
    as [Hset Hnext].
  pose proof (predictedCycleLength_two_groups captured _ a g1 b g2
                Hdates H1 H2 Hsplit) as Hpred.
  cbv zeta in Hpred. rewrite <- Hgap in Hpred. fold st' in Hnext, Hset.
  split; [|split].
  - intros [Hlo Hhi].
    destruct (Z.ltb_spec 20 gap); [|lia].
    destruct (Z.ltb_spec gap 45); [|lia].
    simpl in Hpred. rewrite Hnext, Hpred. auto.
  - intros Hout Hcaptured.
    assert ((20 <? gap) && (gap <? 45) = false) as Hb.
    { destruct (Z.ltb_spec 20 gap); destruct (Z.ltb_spec gap 45);
        simpl; auto; lia. }
    rewrite Hb in Hpred. rewrite Hnext, Hpred, Hset, Hcaptured. reflexivity.
  - intros logs1 e Hone Hcaptured st1.
    assert (Hne1 : flowLogs logs1 <> []).
    { unfold flowLogs. rewrite Hone, sortDesc_singleton. discriminate. }
    destruct (onLogsSnapshot_next captured clock logs1 st Hne1)
      as [Hset1 Hnext1].
    destruct (single_flow_entry_stats_general captured clock logs1 e st Hone)
      as [Hp _].
    fold st1 in Hset1, Hnext1.
    rewrite Hnext1, Hp, Hset1, Hcaptured. reflexivity.
Qed.

Lemma two_groups_prediction_witness :
  let entry d := mkLog d d (Some Medium) None [] None in
  let quiet := mkLog 90 90 None (Some "Tired"%string) [] None in
  let currentLogs := [entry 77; entry 99; quiet; entry 78; entry 98] in
  let clock := mkClock (100 * msPerDay + 36000000) 100 in
  let st' := onLogsSnapshot (mkSettings 30 5) clock currentLogs
               initialState in
  twoPeriodGroups currentLogs 99 [98] 78 [77]
  /\ 99 - List.last [98] 99 = 78 - List.last [77] 78
  /\ Z.abs (List.last [98] 99 - List.last [77] 78) = 21
  /\ currentDay st' = 2 /\ daysUntilNext st' = 19.
Proof.
  intros entry quiet currentLogs clock st'.
  assert (Hgroups : twoPeriodGroups currentLogs 99 [98] 78 [77]).
  { split; [reflexivity|]. simpl. lia. }
  assert (Hspan : 99 - List.last [98] 99 = 78 - List.last [77] 78)
    by reflexivity.
  destruct (two_groups_prediction (mkSettings 30 5) clock currentLogs
              initialState 99 [98] 78 [77] Hgroups Hspan) as (Hin & _ & _).
  destruct Hin as [_ Hnext]; [simpl; lia|].
  fold st' in Hnext.
  split; [exact Hgroups|]. split; [exact Hspan|]. split; [reflexivity|].
  split; [reflexivity|].
  rewrite Hnext. reflexivity.
Defined.

(** The closed-interval reading of C2 fails at a gap of exactly 20 days:
    two one-day groups on days 79 and 99, settings of 30 days, read on day
    100.  The source leaves 28 days (30 - 2); the reading asks for 18.
    The fallback fails for a list without flow logs: with settings of 30
    days the source shows the fixed 28, not 30 - 1. *)
Lemma closed_interval_rule_fails :
  ~ closedIntervalRule /\ ~ fewerThanTwoRule.
Proof.
  pose (entry := fun d => mkLog d d (Some Medium) None [] None).
  pose (clock := mkClock (100 * msPerDay + 36000000) 100).
  split.
  - intros Hrule.
    assert (Hgroups : twoPeriodGroups [entry 99; entry 79] 99 [] 79 []).
    { split; [reflexivity|]. simpl. lia. }
    specialize (Hrule (mkSettings 30 5) clock [entry 99; entry 79]
                  initialState 99 [] 79 [] Hgroups ltac:(lia)).
    vm_compute in Hrule. discriminate.
  - intros Hrule.
    specialize (Hrule (mkSettings 30 5) clock [] initialState
                  ltac:(simpl; lia)).
    vm_compute in Hrule. discriminate.
Qed.

(** The other end of the interval: a gap of exactly 45 days is dropped as
    well. *)
Lemma gap_of_45_days_is_dropped :
  let entry d := mkLog d d (Some Medium) None [] None in
  predictedCycleLength (mkSettings 30 5) (flowLogs [entry 99; entry 54]) = 30.
Proof. reflexivity. Qed.

(** The start recorded for a group is its most recent flow date: with
    flow on days 1 to 3 and on day 29 the recorded starts are 29 and 3,
    26 days apart. *)
Lemma recorded_start_is_newest_day_of_group :
  let entry d := mkLog d d (Some Medium) None [] None in
  let currentLogs := [entry 1; entry 2; entry 3; entry 29] in
  periodStarts (flowLogs currentLogs) = [29; 3]
  /\ predictedCycleLength (mkSettings 30 5) (flowLogs currentLogs) = 26.
Proof. split; reflexivity. Qed.

(** ** Calendar overlay *)

Section LastPeriodStart.

Lemma insertAsc_perm (x : Z) (l : list Z) :
  Permutation (insertAsc x l) (x :: l).
Proof.
  induction l as [|y r IH]; simpl; [reflexivity|].
  destruct (x <? y); [reflexivity|].
  rewrite IH. apply perm_swap.
Qed.

Lemma sortAsc_perm (l : list Z) : Permutation (sortAsc l) l.
Proof.
  induction l as [|x l IH]; simpl; [reflexivity|].
  rewrite insertAsc_perm. by constructor.
Qed.

Lemma insertAsc_sorted (x : Z) (l : list Z) :
  Sorted Z.le l -> Sorted Z.le (insertAsc x l).
Proof.
  induction 1 as [|y r Hr IH Hhd]; simpl; [repeat constructor|].
  destruct (Z.ltb_spec x y).
  - constructor; [by constructor|]. constructor. lia.
  - constructor; [exact IH|].
    destruct r as [|z r]; simpl.
    + constructor. lia.
    + destruct (Z.ltb_spec x z); constructor; [lia|].
      by inversion Hhd.
Qed.

Lemma sortAsc_sorted (l : list Z) : Sorted Z.le (sortAsc l).
Proof.
  induction l as [|x l IH]; simpl; [constructor|].
  by apply insertAsc_sorted.
Qed.

(** The last element of an ascending list bounds the list. *)
Lemma last_of_sorted_is_max (l : list Z) : forall d,
  Sorted Z.le (d :: l) ->
  In (List.last l d) (d :: l) /\ Forall (fun x => x <= List.last l d) (d :: l).
Proof.
  induction l as [|y l IH]; intros d Hs.
  - simpl. split; [auto|]. repeat constructor. lia.
  - inversion Hs as [|? ? Hs' Hhd]; subst.
    inversion Hhd as [|? ? Hdy]; subst.
    destruct (IH y Hs') as [Hin Hmax].
    rewrite <- (last_cons_default l y d) in Hin, Hmax.
    split; [by right|].
    constructor; [|exact Hmax].
    inversion Hmax; subst. lia.
Qed.

(** With a flow entry in the list, [lastPeriodStart] is the newest flow
    date. *)
Lemma lastPeriodStart_newest (logs : list DailyLog) (l : DailyLog) :
  In l logs -> flowTruthy l = true ->
  exists lastStart,
    lastPeriodStart logs = Some lastStart
    /\ (exists l', In l' logs /\ flowTruthy l' = true /\ date l' = lastStart)
    /\ (forall l', In l' logs -> flowTruthy l' = true -> date l' <= lastStart).
Proof.
  intros Hin Hflow. unfold lastPeriodStart, periodDays.
  set (ds := List.map date (List.filter flowTruthy logs)).
  assert (Hmem : forall d, In d (sortAsc ds) <->
                   exists l', In l' logs /\ flowTruthy l' = true /\ date l' = d).
  { intros d. rewrite <- !list_elem_of_In, (sortAsc_perm ds).
    rewrite !list_elem_of_In. unfold ds. rewrite in_map_iff.
    split.
    - intros (l' & <- & [? ?]%filter_In). eauto.
    - intros (l' & ? & ? & <-). exists l'. split; [done|].
      apply filter_In. done. }
  pose proof (sortAsc_sorted ds) as Hsorted.
  destruct (sortAsc ds) as [|d r] eqn:Hds.
  - exfalso. apply (proj2 (Hmem (date l))). exists l. done.
  - destruct (last_of_sorted_is_max r d Hsorted) as [Hlast Hmax].
    exists (List.last r d). split; [done|]. split.
    + by apply Hmem.
    + intros l' Hl' Hf'. rewrite Forall_forall in Hmax. apply Hmax.
      apply list_elem_of_In. apply Hmem. exists l'. done.
Qed.

End LastPeriodStart.

Lemma diffDays_between_dates (d lastStart : Z) :
  Math_ceil_div (Z.abs (getTime d - getTime lastStart)) (1000 * 60 * 60 * 24)
  = Z.abs (d - lastStart).
Proof.
  rewrite msPerDay_value. unfold getTime.
  rewrite <- Z.mul_sub_distr_r, Z.abs_mul.
  rewrite (Z.abs_eq msPerDay) by (pose proof msPerDay_pos; lia).
  apply Math_ceil_div_days.
Qed.


(** ** Number values: rounding *)

Section Rounding.

Lemma roundToDouble_small (z : Z) :
  Z.abs z < 2 ^ 53 -> roundToDouble z = Finite z.
Proof.
  intros Hz. unfold roundToDouble, roundMagnitude.
  destruct (Z.ltb_spec (Z.abs z) (2 ^ 53)); [|lia].
  destruct (Z.leb_spec (2 ^ 1024) (Z.abs z)).
  - assert (2 ^ 53 < 2 ^ 1024) by (apply Z.pow_lt_mono_r; lia). lia.
  - f_equal. lia.
Qed.

(** From [2^53] on, rounding keeps at least the leading 53 bits. *)
Lemma roundMagnitude_large (a : Z) :
  2 ^ 53 <= a ->
  let e := Z.log2 a - 52 in
  1 <= e /\ 2 ^ 52 <= a / 2 ^ e /\ a / 2 ^ e * 2 ^ e <= roundMagnitude a.
Proof.
  intros Ha e.
  assert (Hlog : 53 <= Z.log2 a).
  { rewrite <- (Z.log2_pow2 53) by lia. apply Z.log2_le_mono. exact Ha. }
  assert (Hpos : 0 < a) by (pose proof (Z.pow_pos_nonneg 2 53); lia).
  destruct (Z.log2_spec a Hpos) as [Hlow _].
  assert (HP : 0 < 2 ^ e) by (apply Z.pow_pos_nonneg; lia).
  assert (Hsplit : 2 ^ Z.log2 a = 2 ^ 52 * 2 ^ e).
  { rewrite <- Z.pow_add_r by lia. f_equal. lia. }
  split; [lia|]. split.
  - apply Z.div_le_lower_bound; [exact HP|]. lia.
  - unfold roundMagnitude. destruct (Z.ltb_spec a (2 ^ 53)); [lia|].
    fold e. set (q := a / 2 ^ e). set (P := 2 ^ e) in *.
    destruct (_ <? _); [lia|].
    destruct (_ <? _); [nia|].
    destruct (Z.even q); nia.
Qed.

Lemma roundToDouble_finite_pos (x y : Z) :
  0 < x -> roundToDouble x = Finite y -> y = roundMagnitude x.
Proof.
  intros Hx. unfold roundToDouble. rewrite Z.abs_eq by lia.
  destruct (_ <=? _); [discriminate|]. intros [= <-].
  rewrite Z.sgn_pos by lia. lia.
Qed.

(** Below [2^53] only the integer itself rounds to it. *)
Lemma roundToDouble_safe_inv (x c : Z) :
  0 < x -> c < 2 ^ 53 -> roundToDouble x = Finite c -> x = c.
Proof.
  intros Hx Hc Hround.
  destruct (Z.lt_ge_cases x (2 ^ 53)) as [Hsmall|Hlarge].
  - rewrite roundToDouble_small in Hround by lia. congruence.
  - apply roundToDouble_finite_pos in Hround; [|exact Hx].
    destruct (roundMagnitude_large x Hlarge) as (He & Hq & Hrm).
    set (e := Z.log2 x - 52) in *.
    assert (2 ^ 1 <= 2 ^ e) by (apply Z.pow_le_mono_r; lia).
    assert (2 ^ 53 = 2 ^ 52 * 2 ^ 1) by reflexivity.
    nia.
Qed.

(** Nothing at or above [10^21] rounds below it. *)
Lemma roundToDouble_large_inv (x y : Z) :
  10 ^ 21 <= x -> roundToDouble x = Finite y -> 10 ^ 21 <= y.
Proof.
  intros Hx Hround.
  assert (H53 : 2 ^ 53 <= 10 ^ 21) by (vm_compute; discriminate).
  apply roundToDouble_finite_pos in Hround; [|lia]. subst y.
  destruct (roundMagnitude_large x ltac:(lia)) as (_ & Hq & Hrm).
  assert (Hlog : 69 <= Z.log2 x).
  { change 69 with (Z.log2 (10 ^ 21)). apply Z.log2_le_mono. exact Hx. }
  set (e := Z.log2 x - 52) in *.
  destruct (Z.eq_dec e 17) as [He|He].
  - rewrite He in *.
    assert (HK : 10 ^ 21 = 10 ^ 21 / 2 ^ 17 * 2 ^ 17) by reflexivity.
    assert (10 ^ 21 / 2 ^ 17 <= x / 2 ^ 17).
    { apply Z.div_le_mono; [reflexivity|exact Hx]. }
    assert (0 < 2 ^ 17) by reflexivity.
    nia.
  - assert (2 ^ 18 <= 2 ^ e) by (apply Z.pow_le_mono_r; lia).
    assert (10 ^ 21 <= 2 ^ 52 * 2 ^ 18) by (vm_compute; discriminate).
    nia.
Qed.

Lemma roundToDouble_opp (x c : Z) :
  roundToDouble x = Finite c -> roundToDouble (- x) = Finite (- c).
Proof.
  unfold roundToDouble. rewrite Z.abs_opp.
  destruct (_ <=? _); [discriminate|]. intros [= <-].
  f_equal. rewrite Z.sgn_opp. lia.
Qed.

Lemma roundsTo_true (x v : Z) :
  roundsTo x v = true -> roundToDouble x = Finite v.
Proof.
  unfold roundsTo. destruct (roundToDouble x); try discriminate.
  by intros ->%Z.eqb_eq.
Qed.

End Rounding.

(** ** The digits [String] chooses *)

Lemma shortestFrom_reads_back (v : Z) (p : nat) :
  isNumber v -> 0 < v ->
  0 < shortestFrom v p /\ roundToDouble (shortestFrom v p) = Finite v.
Proof.
  intros Hnum Hv. induction p as [|p IH].
  - cbn [shortestFrom].
    set (unit := 10 ^ Z.of_nat 0). set (lo := v / unit * unit).
    assert (Hunit : 0 < unit) by reflexivity.
    assert (Hlo : 0 <= lo).
    { unfold lo. pose proof (Z.div_pos v unit ltac:(lia) Hunit). nia. }
    destruct ((0 <? lo) && roundsTo lo v) eqn:HokLo;
      destruct (roundsTo (lo + unit) v) eqn:HokHi; cbn [andb].
    + apply andb_true_iff in HokLo as [Hpos%Z.ltb_lt Hr%roundsTo_true].
      apply roundsTo_true in HokHi.
      destruct (_ <? _); [split; [lia|done]|].
      destruct (_ <? _); [split; [lia|done]|].
      destruct (Z.even _); split; (lia || done).
    + apply andb_true_iff in HokLo as [Hpos%Z.ltb_lt Hr%roundsTo_true].
      split; [lia|done].
    + apply roundsTo_true in HokHi. split; [lia|done].
    + split; [lia|exact Hnum].
  - cbn [shortestFrom].
    set (unit := 10 ^ Z.of_nat (S p)). set (lo := v / unit * unit).
    assert (Hunit : 0 < unit) by (apply Z.pow_pos_nonneg; lia).
    assert (Hlo : 0 <= lo).
    { unfold lo. pose proof (Z.div_pos v unit ltac:(lia) Hunit). nia. }
    destruct ((0 <? lo) && roundsTo lo v) eqn:HokLo;
      destruct (roundsTo (lo + unit) v) eqn:HokHi; cbn [andb].
    + apply andb_true_iff in HokLo as [Hpos%Z.ltb_lt Hr%roundsTo_true].
      apply roundsTo_true in HokHi.
      destruct (_ <? _); [split; [lia|done]|].
      destruct (_ <? _); [split; [lia|done]|].
      destruct (Z.even _); split; (lia || done).
    + apply andb_true_iff in HokLo as [Hpos%Z.ltb_lt Hr%roundsTo_true].
      split; [lia|done].
    + apply roundsTo_true in HokHi. split; [lia|done].
    + exact IH.
Qed.

Lemma shortestValue_reads_back (v : Z) :
  isNumber v -> 0 < v ->
  0 < shortestValue v /\ roundToDouble (shortestValue v) = Finite v.
Proof. apply shortestFrom_reads_back. Qed.

(** A safe integer prints as its own decimal digits. *)
Lemma String_safe (z : Z) : Z.abs z < 2 ^ 53 -> String_ z = pretty z.
Proof.
  intros Hz.
  assert (Hpos : forall v, 0 < v < 2 ^ 53 -> unsignedToString v = pretty v).
  { intros v Hv. unfold unsignedToString.
    destruct (shortestValue_reads_back v) as [Hx Hback];
      [apply roundToDouble_small; lia|lia|].
    rewrite (roundToDouble_safe_inv _ v Hx ltac:(lia) Hback).
    assert (2 ^ 53 < 10 ^ 21) by reflexivity.
    destruct (Z.ltb_spec v (10 ^ 21)); [reflexivity|lia]. }
  destruct z as [|p|p]; [reflexivity|apply Hpos; lia|].
  unfold String_. change (- Z.neg p) with (Z.pos p).
  rewrite Hpos by lia. reflexivity.
Qed.

(** ** [parseInt] on numerals *)

Section ParseInt.

Lemma pretty_N_char_code (d : N) :
  (d < 10)%N -> N_of_ascii (pretty_N_char d) = (48 + d)%N.
Proof.
  intros Hd.
  assert (d = 0 \/ d = 1 \/ d = 2 \/ d = 3 \/ d = 4 \/ d = 5 \/ d = 6
          \/ d = 7 \/ d = 8 \/ d = 9)%N as Hcases by lia.
  repeat (destruct Hcases as [->|Hcases]; [reflexivity|]).
  subst d. reflexivity.
Qed.

Lemma radixDigit_decimal (d : N) :
  (d < 10)%N -> radixDigit 10 (48 + d) = Some (Z.of_N d).
Proof.
  intros Hd.
  assert (d = 0 \/ d = 1 \/ d = 2 \/ d = 3 \/ d = 4 \/ d = 5 \/ d = 6
          \/ d = 7 \/ d = 8 \/ d = 9)%N as Hcases by lia.
  repeat (destruct Hcases as [->|Hcases]; [reflexivity|]).
  subst d. reflexivity.
Qed.

(** Reading back the digits [pretty_N_go] writes in front of [s]. *)
Lemma parseDigits_pretty_N_go (x : N) : forall s,
  (0 < x)%N ->
  parseDigits 10 (codeUnits (pretty_N_go x s)) None
  = parseDigits 10 (codeUnits s) (Some (Z.of_N x)).
Proof.
  induction (N.lt_wf_0 x) as [x _ IH]. intros s Hx.
  rewrite pretty_N_go_step by done.
  assert (Hdigit : (x `mod` 10 < 10)%N) by (apply N.mod_lt; lia).
  pose proof (N.div_mod x 10 ltac:(lia)) as Hdm.
  set (q := (x / 10)%N) in *. set (r := (x mod 10)%N) in *.
  destruct (decide (q = 0)%N) as [Hz|Hnz].
  - rewrite Hz, pretty_N_go_0. cbn [codeUnits parseDigits].
    rewrite (pretty_N_char_code _ Hdigit), (radixDigit_decimal _ Hdigit).
    unfold from_option. do 2 f_equal. clearbody q r. lia.
  - rewrite IH; [|apply N.div_lt; lia|clearbody q; lia].
    cbn [codeUnits parseDigits].
    rewrite (pretty_N_char_code _ Hdigit), (radixDigit_decimal _ Hdigit).
    unfold from_option, Datatypes.id. do 2 f_equal. clearbody q r. lia.
Qed.

(** A positive numeral starts with a digit other than 0. *)
Lemma pretty_N_go_head (x : N) : forall s,
  (0 < x)%N ->
  exists d r, (0 < d < 10)%N /\ pretty_N_go x s = String (pretty_N_char d) r.
Proof.
  induction (N.lt_wf_0 x) as [x _ IH]. intros s Hx.
  rewrite pretty_N_go_step by done.
  pose proof (N.div_mod x 10 ltac:(lia)) as Hdm.
  pose proof (N.mod_lt x 10 ltac:(lia)) as Hlt.
  set (q := (x / 10)%N) in *. set (r := (x mod 10)%N) in *.
  destruct (decide (q = 0)%N) as [Hz|Hnz].
  - rewrite Hz, pretty_N_go_0. exists r. eexists. split; [|reflexivity].
    clearbody q r. lia.
  - apply IH.
    + apply N.div_lt; lia.
    + apply N.neq_0_lt_0. exact Hnz.
Qed.

Lemma digit_code_plain (d : N) :
  (0 < d < 10)%N ->
  isWhiteSpace (48 + d) = false
  /\ (48 + d =? 43)%N = false /\ (48 + d =? 45)%N = false
  /\ (48 + d =? 48)%N = false.
Proof.
  intros Hd.
  assert (d = 1 \/ d = 2 \/ d = 3 \/ d = 4 \/ d = 5 \/ d = 6
          \/ d = 7 \/ d = 8 \/ d = 9)%N as Hcases by lia.
  repeat (destruct Hcases as [->|Hcases]; [by repeat split|]).
  subst d. by repeat split.
Qed.

Lemma stripPrefix_plain (c : N) (r : list N) :
  (c =? 48)%N = false -> stripPrefix (c :: r) = (10, c :: r).
Proof.
  intros Hc. unfold stripPrefix. destruct r as [|x r]; [reflexivity|].
  by rewrite Hc.
Qed.

(** The digits of a positive numeral, with or without a minus sign in
    front, are read in radix 10 to the end. *)
Lemma parseInt_numeral (p : positive) (negative : bool) :
  parseInt ((if negative then [45%N] else [])
            ++ codeUnits (pretty (N.pos p)))
  = roundToDouble (if negative then Z.neg p else Z.pos p).
Proof.
  unfold pretty, pretty_N. rewrite decide_False by done.
  assert (Hdigits := parseDigits_pretty_N_go (N.pos p) "" ltac:(lia)).
  destruct (pretty_N_go_head (N.pos p) "" ltac:(lia)) as (d & r & Hd & Hhead).
  rewrite Hhead in *. cbn [codeUnits] in *.
  rewrite (pretty_N_char_code d) in * by lia.
  destruct (digit_code_plain d Hd) as (Hws & Hplus & Hminus & Hzero).
  unfold parseInt. destruct negative; cbn [List.app trimStart].
  - change (isWhiteSpace 45) with false. cbv iota.
    change (45 =? 45)%N with true. change (45 =? 43)%N with false.
    cbn [orb]. cbv iota.
    rewrite (stripPrefix_plain _ _ Hzero), Hdigits. reflexivity.
  - rewrite Hws, Hplus, Hminus. cbn [orb].
    rewrite (stripPrefix_plain _ _ Hzero), Hdigits. reflexivity.
Qed.

(** Reading the decimal numeral of an integer gives its Number value. *)
Lemma parseInt_pretty (z : Z) :
  parseInt (codeUnits (pretty z)) = roundToDouble z.
Proof.
  destruct z as [|p|p].
  - reflexivity.
  - apply (parseInt_numeral p false).
  - apply (parseInt_numeral p true).
Qed.

(** [parseInt(String(n))] gives back a Number value [n] below [10^21]. *)
Lemma parseInt_String (n : Z) :
  isNumber n -> Z.abs n < 10 ^ 21 ->
  parseInt (codeUnits (String_ n)) = Finite n.
Proof.
  intros Hnum Hn.
  assert (Hpos : forall v, isNumber v -> 0 < v < 10 ^ 21 ->
            exists x, 0 < x /\ unsignedToString v = pretty x
                      /\ roundToDouble x = Finite v).
  { intros v Hv Hrange.
    destruct (shortestValue_reads_back v Hv ltac:(lia)) as [Hx Hback].
    exists (shortestValue v). split; [exact Hx|]. split; [|exact Hback].
    unfold unsignedToString.
    destruct (Z.ltb_spec (shortestValue v) (10 ^ 21)); [reflexivity|].
    pose proof (roundToDouble_large_inv _ _ ltac:(eassumption) Hback). lia. }
  destruct n as [|p|p]; [reflexivity|..].
  - destruct (Hpos (Z.pos p) Hnum ltac:(lia)) as (x & Hx & Hstr & Hback).
    unfold String_. by rewrite Hstr, parseInt_pretty.
  - assert (Hnum' : isNumber (Z.pos p))
      by (apply (roundToDouble_opp _ _ Hnum)).
    destruct (Hpos (Z.pos p) Hnum' ltac:(lia)) as (x & Hx & Hstr & Hback).
    unfold String_. change (- Z.neg p) with (Z.pos p). rewrite Hstr.
    destruct x as [|px|px]; try lia.
    change ("-" +:+ pretty (Z.pos px)) with (pretty (Z.neg px)).
    rewrite parseInt_pretty.
    apply (roundToDouble_opp _ _ Hback).
Qed.

End ParseInt.

(** ** Settings form and settings document *)

Lemma SettingsForm_handleSave_exact (c p : Z) :
  isNumber c -> isNumber p -> Z.abs c < 10 ^ 21 -> Z.abs p < 10 ^ 21 ->
  SettingsForm_handleSave (Finite c) (Finite p) = (Finite c, Finite p).
Proof.
  intros Hc Hp Hcr Hpr. unfold SettingsForm_handleSave, Number_toString.
  by rewrite !parseInt_String.
Qed.

(** The numeral of an integer, typed into a settings input. *)
Lemma SettingsForm_onChange_numeral (n : Z) :
  SettingsForm_onChange (codeUnits (pretty n)) = roundToDouble n.
Proof.
  unfold SettingsForm_onChange. rewrite parseInt_pretty.
  destruct (roundToDouble n) as [| |z] eqn:Hround; [|reflexivity|].
  - unfold roundToDouble in Hround. by destruct (_ <=? _).
  - destruct (Z.eqb_spec z 0); congruence.
Qed.

(** C6, as the code has it.  For two integers the form can hold (Number
    values) whose magnitude is below [10^21]: typing their numerals puts
    them into the form, and saving the form as a signed-in user writes
    exactly these two numbers as [cycleLength] and [periodLength]; the
    document is replaced as a whole, so whatever it held before is gone
    and no other field remains. *)
Theorem save_settings_overwrites
    (c p : Z) (w : World) (uid : string) :
  user (app w) = Some uid ->
  isNumber c -> isNumber p ->
  Z.abs c < 10 ^ 21 -> Z.abs p < 10 ^ 21 ->
  SettingsForm_onChange (codeUnits (pretty c)) = Finite c
  /\ SettingsForm_onChange (codeUnits (pretty p)) = Finite p
  /\ exists w',
    saveSettingsForm (Finite c) (Finite p) w = Some w'
    /\ exists doc,
         settingsDoc (remote w') = Some doc
         /\ doc !! "cycleLength"%string = Some c
         /\ doc !! "periodLength"%string = Some p
         /\ dom doc = {["cycleLength"%string; "periodLength"%string]}
         /\ logDocs (remote w') = logDocs (remote w).
Proof.
  intros Huser Hc Hp Hcr Hpr.
  split; [by rewrite SettingsForm_onChange_numeral|].
  split; [by rewrite SettingsForm_onChange_numeral|].
  unfold saveSettingsForm.
  rewrite SettingsForm_handleSave_exact by assumption.
  cbn [asSettings fmap option_fmap option_map].
  unfold handleSaveSettings. rewrite Huser.
  eexists. split; [reflexivity|]. cbn [remote settingsDoc logDocs].
  eexists. split; [reflexivity|]. unfold settingsFields.
  cbn [cycleLength periodLength].
  split; [by rewrite lookup_insert_eq|].
  split; [by rewrite lookup_insert_ne, lookup_insert_eq|].
  split; [|reflexivity].
  rewrite !dom_insert_L, dom_empty_L. set_solver.
Qed.

Lemma save_settings_overwrites_witness :
  let old := <["cycleLength"%string := 28]> (<["theme"%string := 1]> ∅) in
  let w := mkWorld (mkState (Some "uid"%string) settingsView []
                      (mkSettings 28 5) false false 1 28 false)
             (mkStore ∅ (Some old)) in
  user (app w) = Some "uid"%string
  /\ isNumber 31 /\ isNumber (-4)
  /\ SettingsForm_onChange (codeUnits "31") = Finite 31
  /\ exists w' doc,
       saveSettingsForm (Finite 31) (Finite (-4)) w = Some w'
       /\ settingsDoc (remote w') = Some doc
       /\ doc !! "cycleLength"%string = Some 31
       /\ doc !! "periodLength"%string = Some (-4)
       /\ doc !! "theme"%string = None.
Proof.
  intros old w. split; [reflexivity|].
  assert (H31 : isNumber 31) by reflexivity.
  assert (H4 : isNumber (-4)) by reflexivity.
  split; [exact H31|]. split; [exact H4|].
  destruct (save_settings_overwrites 31 (-4) w "uid"%string eq_refl H31 H4)
    as (Htyped & _ & w' & Hsave & doc & Hdoc & Hc & Hp & Hdom & _);
    [reflexivity|reflexivity|].
  split; [exact Htyped|].
  exists w', doc. repeat (split; [assumption|]).
  apply not_elem_of_dom. rewrite Hdom.
  rewrite elem_of_union, !elem_of_singleton. intros [?|?]; discriminate.
Defined.

(** The reading of C6 for every pair of integers fails at [10^21]: the
    input holds the Number [10^21], [String] prints it as [1e+21], and
    [parseInt] reads the digits before the [e]: the document gets a cycle
    length of 1. *)
Lemma integer_pair_not_persisted : ~ everyIntegerPairPersisted.
Proof.
  intros Hrule.
  pose (w := mkWorld (setUser (Some "uid"%string) initialState)
               (mkStore ∅ None)).
  destruct (Hrule (10 ^ 21) 5 w "uid"%string eq_refl)
    as (w' & doc & Hsave & Hdoc & Hc & _).
  assert (Htyped : SettingsForm_onChange (codeUnits (pretty (10 ^ 21)))
                   = Finite (10 ^ 21)) by (vm_compute; reflexivity).
  assert (Hfive : SettingsForm_onChange (codeUnits (pretty 5)) = Finite 5)
    by (vm_compute; reflexivity).
  assert (Hform : SettingsForm_handleSave (Finite (10 ^ 21)) (Finite 5)
                  = (Finite 1, Finite 5)) by (vm_compute; reflexivity).
  rewrite Htyped, Hfive in Hsave. unfold saveSettingsForm in Hsave.
  rewrite Hform in Hsave.
  cbn [asSettings fmap option_fmap option_map] in Hsave.
  injection Hsave as <-.
  cbn [handleSaveSettings w app user setUser remote settingsDoc] in Hdoc.
  injection Hdoc as <-.
  unfold settingsFields in Hc. cbn [cycleLength] in Hc.
  rewrite lookup_insert_eq in Hc. vm_compute in Hc. discriminate Hc.
Qed.

(** ** The optimistic local update *)

Section OptimisticUpdate.

Variables (clock : Clock) (data : LogData).

Let sameDate (l : DailyLog) : bool := date l =? d_date data.
Let mergeHere (l : DailyLog) : DailyLog :=
  if date l =? d_date data then mergeIntoLog l data else l.

Lemma mergeHere_date (l : DailyLog) : date (mergeHere l) = date l.
Proof.
  unfold mergeHere. destruct (Z.eqb_spec (date l) (d_date data)) as [->|];
    reflexivity.
Qed.

Lemma find_sameDate_None (prev : list DailyLog) :
  List.find sameDate prev = None <-> ~ In (d_date data) (List.map date prev).
Proof.
  split.
  - intros Hnone Hin. apply in_map_iff in Hin as (l & Hl & Hin).
    pose proof (find_none _ _ Hnone l Hin) as Hfalse.
    unfold sameDate in Hfalse. rewrite Hl, Z.eqb_refl in Hfalse. discriminate.
  - intros Hnotin. destruct (List.find sameDate prev) as [l|] eqn:Hfind;
      [|reflexivity].
    apply find_some in Hfind as [Hin Hl]. exfalso. apply Hnotin.
    apply in_map_iff. exists l. split; [|exact Hin].
    unfold sameDate in Hl. by apply Z.eqb_eq.
Qed.

(** The update replaces in place or adds in front; either way the list
    of dates only ever gains the saved date. *)
Lemma optimisticUpdate_dates (prev : list DailyLog) :
  let next := optimisticUpdate clock data prev in
  (In (d_date data) (List.map date prev)
   /\ next = List.map mergeHere prev
   /\ List.map date next = List.map date prev)
  \/ (~ In (d_date data) (List.map date prev)
      /\ next = newLog clock data :: prev
      /\ List.map date next = d_date data :: List.map date prev).
Proof.
  unfold optimisticUpdate. fold sameDate.
  destruct (List.find sameDate prev) as [l|] eqn:Hfind.
  - left. split; [|split; [reflexivity|]].
    + apply find_some in Hfind as [Hin Hl]. apply in_map_iff.
      exists l. split; [|exact Hin]. by apply Z.eqb_eq.
    + rewrite List.map_map. apply List.map_ext, mergeHere_date.
  - right. split; [by apply find_sameDate_None|]. split; reflexivity.
Qed.

Lemma optimisticUpdate_NoDup (prev : list DailyLog) :
  NoDup (List.map date prev) ->
  NoDup (List.map date (optimisticUpdate clock data prev)).
Proof.
  intros Hnodup.
  destruct (optimisticUpdate_dates prev) as [(_ & _ & ->)|(Hnew & _ & ->)];
    [done|].
  constructor; [|done]. by rewrite list_elem_of_In.
Qed.

Lemma find_sameDate_map (prev : list DailyLog) (l : DailyLog) :
  List.find sameDate prev = Some l ->
  List.find sameDate (List.map mergeHere prev) = Some (mergeIntoLog l data).
Proof.
  induction prev as [|x prev IH]; [discriminate|].
  cbn [List.find List.map]. unfold sameDate at 1 3.
  rewrite mergeHere_date.
  destruct (Z.eqb_spec (date x) (d_date data)) as [Hx|Hx].
  - intros [= ->]. unfold mergeHere. by rewrite Hx, Z.eqb_refl.
  - exact IH.
Qed.

(** After a save that carries a [flow] key, the local list shows that
    flow for the saved date. *)
Lemma localFlow_after_save (prev : list DailyLog) (f : option Flow) :
  d_flow data = Some f ->
  localFlow (optimisticUpdate clock data prev) (d_date data) = f.
Proof.
  intros Hflow. unfold localFlow, optimisticUpdate. fold sameDate.
  destruct (List.find sameDate prev) as [l|] eqn:Hfind.
  - fold mergeHere. rewrite (find_sameDate_map prev l Hfind).
    unfold mergeIntoLog. cbn [flow]. by rewrite Hflow.
  - cbn [List.find]. unfold sameDate at 1, newLog. cbn [date].
    rewrite Z.eqb_refl. cbn [flow]. by rewrite Hflow.
Qed.

End OptimisticUpdate.

(** ** The remote write *)

Lemma writeLog_lookup (data : LogData) (docs : gmap Z LogData) :
  writeLog data docs !! d_date data =
    if clearsAllData data then None
    else Some (mergeDoc (docs !! d_date data) data).
Proof.
  unfold writeLog. destruct (clearsAllData data).
  - apply lookup_delete_eq.
  - apply lookup_insert_eq.
Qed.

Lemma writeLog_lookup_other (data : LogData) (docs : gmap Z LogData) (k : Z) :
  k <> d_date data -> writeLog data docs !! k = docs !! k.
Proof.
  intros Hk. unfold writeLog. destruct (clearsAllData data).
  - by apply lookup_delete_ne.
  - by apply lookup_insert_ne.
Qed.

Lemma mergeDoc_date (old : option LogData) (data : LogData) :
  d_date (mergeDoc old data) = d_date data.
Proof. destruct old; reflexivity. Qed.

(** Merge semantics: a key of the payload wins, a key it lacks keeps the
    stored value. *)
Lemma mergeDoc_fields (o data : LogData) :
  d_flow (mergeDoc (Some o) data) = orElse (d_flow data) (d_flow o)
  /\ d_mood (mergeDoc (Some o) data) = orElse (d_mood data) (d_mood o)
  /\ d_symptoms (mergeDoc (Some o) data)
     = orElse (d_symptoms data) (d_symptoms o).
Proof. repeat split. Qed.

(** The record of the saved date is gone exactly when the payload itself
    carries no flow, no mood and no symptoms. *)
Lemma writeLog_deletes_iff (data : LogData) (docs : gmap Z LogData) :
  writeLog data docs !! d_date data = None <-> clearsAllData data = true.
Proof.
  rewrite writeLog_lookup. destruct (clearsAllData data); split;
    (done || discriminate).
Qed.

(** A save that would leave every field empty does delete the record. *)
Lemma wouldLeaveEmpty_deletes (data : LogData) (docs : gmap Z LogData) :
  wouldLeaveEmpty (docs !! d_date data) data = true ->
  writeLog data docs !! d_date data = None.
Proof.
  intros Hempty. apply writeLog_deletes_iff. revert Hempty.
  unfold wouldLeaveEmpty, clearsAllData, mergeDoc.
  destruct (docs !! d_date data) as [o|]; [|done].
  cbn [d_flow d_mood d_symptoms]. rewrite !andb_true_iff.
  intros [[Hflow Hmood] Hsymptoms]. repeat split.
  - destruct (d_flow data) as [[f|]|]; done.
  - destruct (d_mood data) as [[m|]|]; done.
  - destruct (d_symptoms data) as [ss|]; done.
Qed.

Lemma writeLog_keyed_by_date (data : LogData) (docs : gmap Z LogData) :
  (forall k doc, docs !! k = Some doc -> d_date doc = k) ->
  forall k doc, writeLog data docs !! k = Some doc -> d_date doc = k.
Proof.
  intros Hkeys k doc. destruct (decide (k = d_date data)) as [->|Hk].
  - rewrite writeLog_lookup. destruct (clearsAllData data); [discriminate|].
    intros [= <-]. apply mergeDoc_date.
  - rewrite writeLog_lookup_other by done. apply Hkeys.
Qed.

Lemma handleLogSave_logs (clock : Clock) (data : LogData) (w : World) :
  logs (app (handleLogSave clock data w))
  = optimisticUpdate clock data (logs (app w)).
Proof. unfold handleLogSave. destruct (user (app w)); reflexivity. Qed.

Lemma handleLogSave_user (clock : Clock) (data : LogData) (w : World) :
  user (app (handleLogSave clock data w)) = user (app w).
Proof.
  unfold handleLogSave. destruct (user (app w)) eqn:Huser; exact Huser.
Qed.

Lemma handleLogSave_docs (clock : Clock) (data : LogData) (w : World) :
  logDocs (remote (handleLogSave clock data w)) =
    match user (app w) with
    | Some _ => writeLog data (logDocs (remote w))
    | None => logDocs (remote w)
    end.
Proof. unfold handleLogSave. destruct (user (app w)); reflexivity. Qed.

Lemma handleTogglePeriod_payload (clock : Clock) (d : Z) (w : World) :
  handleTogglePeriod clock d w
  = handleLogSave clock (togglePayload (logs (app w)) d) w.
Proof.
  unfold handleTogglePeriod, togglePayload, localFlow.
  destruct (List.find _ _) as [existing|]; [|reflexivity].
  unfold flowTruthy. destruct (flow existing); reflexivity.
Qed.

(** ** Saving and toggling *)

(** C3, the input where the source parts from it.  The stored record of
    day 10 holds flow Medium, mood Happy and one symptom.  The calendar
    toggle for that day saves [{ date, flow: null }].  Merged into the
    stored record, that save would leave mood and symptoms in place (and
    the local list keeps them), yet the remote record is deleted. *)
Theorem toggle_off_deletes_record_with_mood :
  let stored :=
    mkData 10 (Some (Some Medium)) (Some (Some "Happy"%string))
      (Some ["Cramps"%string]) in
  let clock := mkClock (12 * msPerDay) 12 in
  let w := mkWorld
             (mkState (Some "uid"%string) calendar [docToLog (10, stored)]
                (mkSettings 28 5) false false 3 25 false)
             (mkStore {[ 10 := stored ]} None) in
  let payload := mkData 10 (Some None) None None in
  let w' := handleTogglePeriod clock 10 w in
  w' = handleLogSave clock payload w
  /\ wouldLeaveEmpty (logDocs (remote w) !! 10) payload = false
  /\ d_mood (mergeDoc (logDocs (remote w) !! 10) payload)
     = Some (Some "Happy"%string)
  /\ d_symptoms (mergeDoc (logDocs (remote w) !! 10) payload)
     = Some ["Cramps"%string]
  /\ logDocs (remote w') !! 10 = None
  /\ List.map mood (logs (app w')) = [Some "Happy"%string].
Proof.
  intros stored clock w payload w'. split; [reflexivity|].
  split; [|split; [|split]].
  - cbn [w remote logDocs]. by rewrite lookup_singleton_eq.
  - cbn [w remote logDocs]. by rewrite lookup_singleton_eq.
  - cbn [w remote logDocs]. by rewrite lookup_singleton_eq.
  - split; [|reflexivity].
    unfold w'. rewrite handleTogglePeriod_payload, handleLogSave_docs.
    cbn [w app user]. apply writeLog_deletes_iff. reflexivity.
Qed.

(** C4. On a date for which the local list shows no flow, the toggle sets
    the flow to Medium; a second toggle clears it again.  For a signed-in
    user the store follows: the record holds Medium after the first toggle
    and is gone after the second. *)
Theorem toggle_twice_returns_to_no_flow
    (clock1 clock2 : Clock) (d : Z) (w : World) :
  localFlow (logs (app w)) d = None ->
  let w1 := handleTogglePeriod clock1 d w in
  let w2 := handleTogglePeriod clock2 d w1 in
  localFlow (logs (app w1)) d = Some Medium
  /\ localFlow (logs (app w2)) d = None
  /\ (user (app w) <> None ->
      remoteFlow (logDocs (remote w1)) d = Some Medium
      /\ remoteFlow (logDocs (remote w2)) d = None).
Proof.
  intros Hnone w1 w2.
  assert (Hw1 : w1 = handleLogSave clock1
                       (mkData d (Some (Some Medium)) None None) w).
  { unfold w1. rewrite handleTogglePeriod_payload.
    unfold togglePayload. by rewrite Hnone. }
  assert (Hflow1 : localFlow (logs (app w1)) d = Some Medium).
  { rewrite Hw1, handleLogSave_logs.
    apply (localFlow_after_save clock1
             (mkData d (Some (Some Medium)) None None)). reflexivity. }
  assert (Hw2 : w2 = handleLogSave clock2 (mkData d (Some None) None None) w1).
  { unfold w2. rewrite handleTogglePeriod_payload.
    unfold togglePayload. by rewrite Hflow1. }
  split; [exact Hflow1|]. split.
  - rewrite Hw2, handleLogSave_logs.
    apply (localFlow_after_save clock2 (mkData d (Some None) None None)).
    reflexivity.
  - intros Huser. unfold remoteFlow. split.
    + rewrite Hw1, handleLogSave_docs.
      destruct (user (app w)); [|done].
      rewrite (writeLog_lookup (mkData d (Some (Some Medium)) None None)).
      cbn [clearsAllData d_flow negb andb].
      by destruct (logDocs (remote w) !! _).
    + rewrite Hw2, handleLogSave_docs. unfold w1.
      rewrite handleTogglePeriod_payload, handleLogSave_user.
      destruct (user (app w)); [|done].
      by rewrite (writeLog_lookup (mkData d (Some None) None None)).
Qed.

Lemma toggle_twice_returns_to_no_flow_witness :
  let clock := mkClock (12 * msPerDay) 12 in
  let quiet := mkLog 10 10 None (Some "Sad"%string) [] None in
  let w := mkWorld
             (mkState (Some "uid"%string) calendar [quiet]
                (mkSettings 28 5) false false 1 28 false)
             (mkStore ∅ None) in
  let w1 := handleTogglePeriod clock 10 w in
  let w2 := handleTogglePeriod clock 10 w1 in
  localFlow (logs (app w)) 10 = None
  /\ localFlow (logs (app w1)) 10 = Some Medium
  /\ localFlow (logs (app w2)) 10 = None
  /\ remoteFlow (logDocs (remote w2)) 10 = None.
Proof.
  intros clock quiet w w1 w2.
  destruct (toggle_twice_returns_to_no_flow clock clock 10 w eq_refl)
    as (H1 & H2 & Hremote).
  split; [reflexivity|]. split; [exact H1|]. split; [exact H2|].
  apply Hremote. discriminate.
Defined.

(** C10. The local update of a save never drops an entry: it merges into
    the entries of the saved date or puts a new entry in front.  So the
    saved date has an entry afterwards, even when the payload clears all
    data and the record is deleted from the store. *)
Theorem optimistic_update_never_removes
    (clock : Clock) (data : LogData) (w : World) :
  let prev := logs (app w) in
  let w' := handleLogSave clock data w in
  let next := logs (app w') in
  (next = List.map (fun l => if date l =? d_date data
                             then mergeIntoLog l data else l) prev
   \/ next = newLog clock data :: prev)
  /\ (length prev <= length next)%nat
  /\ (forall l, In l prev -> In (date l) (List.map date next))
  /\ In (d_date data) (List.map date next)
  /\ (clearsAllData data = true -> user (app w) <> None ->
      logDocs (remote w') !! d_date data = None
      /\ In (d_date data) (List.map date next)).
Proof.
  intros prev w' next.
  assert (Hnext : next = optimisticUpdate clock data prev)
    by apply handleLogSave_logs.
  assert (Hdate : In (d_date data) (List.map date next)).
  { rewrite Hnext.
    destruct (optimisticUpdate_dates clock data prev)
      as [(Hin & _ & ->)|(_ & _ & ->)]; [exact Hin|by left]. }
  split; [|split; [|split; [|split]]].
  - destruct (optimisticUpdate_dates clock data prev)
      as [(_ & Heq & _)|(_ & Heq & _)]; rewrite Hnext; auto.
  - rewrite Hnext.
    destruct (optimisticUpdate_dates clock data prev)
      as [(_ & -> & _)|(_ & -> & _)].
    + by rewrite length_map.
    + cbn [length]. lia.
  - intros l Hl. rewrite Hnext.
    destruct (optimisticUpdate_dates clock data prev)
      as [(_ & _ & ->)|(_ & _ & ->)].
    + by apply in_map.
    + right. by apply in_map.
  - exact Hdate.
  - intros Hclears Huser. split; [|exact Hdate].
    unfold w'. rewrite handleLogSave_docs.
    destruct (user (app w)); [|done].
    by apply writeLog_deletes_iff.
Qed.

Lemma optimistic_update_never_removes_witness :
  let clock := mkClock (12 * msPerDay) 12 in
  let stored := mkData 10 (Some (Some Light)) (Some None) (Some []) in
  let w := mkWorld
             (mkState (Some "uid"%string) log [docToLog (10, stored)]
                (mkSettings 28 5) false false 1 28 false)
             (mkStore {[ 10 := stored ]} None) in
  let data := mkData 10 (Some None) (Some None) (Some []) in
  let w' := handleLogSave clock data w in
  clearsAllData data = true
  /\ logDocs (remote w') !! 10 = None
  /\ List.map date (logs (app w')) = [10].
Proof.
  intros clock stored w data w'.
  destruct (optimistic_update_never_removes clock data w)
    as (_ & _ & _ & _ & Hcleared).
  destruct Hcleared as [Hgone _]; [reflexivity|discriminate|].
  split; [reflexivity|]. split; [exact Hgone|reflexivity].
Defined.

(** ** One log per date *)

Lemma calculateCycleStats_logs (s : UserSettings) (clock : Clock)
    (currentLogs : list DailyLog) (st : AppState) :
  logs (calculateCycleStats s clock currentLogs st) = logs st.
Proof.
  unfold calculateCycleStats. destruct (flowLogs currentLogs); reflexivity.
Qed.

Lemma queryLogs_NoDup (docs : gmap Z LogData) :
  (forall k doc, docs !! k = Some doc -> d_date doc = k) ->
  NoDup (List.map date (queryLogs docs)).
Proof.
  intros Hkeys. unfold queryLogs.
  rewrite (Permutation_map date (sortDesc_perm _)), List.map_map.
  rewrite (List.map_ext_in _ fst); [apply NoDup_fst_map_to_list|].
  intros [k doc] Hin. cbn [docToLog date fst snd].
  apply Hkeys. apply elem_of_map_to_list. by apply list_elem_of_In.
Qed.

Lemma step_uniqueDates (clock : Clock) (op : Op) (w : World) :
  uniqueDates w -> uniqueDates (step clock w op).
Proof.
  intros [Hlocal Hkeys].
  assert (Hsave : forall data, uniqueDates (handleLogSave clock data w)).
  { intros data. split.
    - rewrite handleLogSave_logs. by apply optimisticUpdate_NoDup.
    - rewrite handleLogSave_docs. destruct (user (app w)); [|exact Hkeys].
      by apply writeLog_keyed_by_date. }
  destruct op as [data|d|captured]; cbn [step].
  - apply Hsave.
  - rewrite handleTogglePeriod_payload. apply Hsave.
  - split; [|exact Hkeys]. cbn [app remote]. unfold onLogsSnapshot.
    change (logs (setLoading false ?st)) with (logs st).
    rewrite calculateCycleStats_logs. by apply queryLogs_NoDup.
Qed.

(** C7. Every run of saves and toggles (and of snapshots delivered in
    between) keeps at most one log per date: the local list never holds
    two entries with the same date, and every stored record sits under
    the key of its own date, so no two records share one.  A single save
    leaves the dates of the list as they are when the saved date is
    there, and puts the saved date in front when it is new. *)
Theorem one_log_per_date (ops : list (Clock * Op)) : forall w : World,
  uniqueDates w ->
  uniqueDates (run w ops)
  /\ forall (clock : Clock) (data : LogData),
       let prevDates := List.map date (logs (app w)) in
       let nextDates :=
         List.map date (logs (app (handleLogSave clock data w))) in
       (In (d_date data) prevDates /\ nextDates = prevDates)
       \/ (~ In (d_date data) prevDates
           /\ nextDates = d_date data :: prevDates).
Proof.
  intros w Hw. split.
  - revert w Hw.
    induction ops as [|[clock op] ops IH]; intros w Hw; [exact Hw|].
    apply IH. by apply step_uniqueDates.
  - intros clock data prevDates nextDates. unfold nextDates.
    rewrite handleLogSave_logs.
    destruct (optimisticUpdate_dates clock data (logs (app w)))
      as [(Hin & _ & Heq)|(Hnew & _ & Heq)]; [left|right]; done.
Qed.

Lemma one_log_per_date_witness :
  let clock := mkClock (12 * msPerDay) 12 in
  let ops := [ (clock, OpToggle 10);
               (clock, OpSave (mkData 10 None (Some (Some "Happy"%string)) None));
               (clock, OpSave (mkData 11 (Some (Some Heavy)) None None));
               (clock, OpToggle 10) ] in
  uniqueDates initialWorld
  /\ uniqueDates (run initialWorld ops)
  /\ List.map date (logs (app (run initialWorld ops))) = [11; 10].
Proof.
  intros clock ops.
  assert (Hinit : uniqueDates initialWorld).
  { split; [constructor|]. intros k doc. cbn. by rewrite lookup_empty. }
  split; [exact Hinit|]. split; [|reflexivity].
  exact (proj1 (one_log_per_date ops initialWorld Hinit)).
Defined.

(** ** Subscription failure *)

(** C8. When the subscription on the log collection fails, the error
    callback turns the loading indicator off and touches nothing else:
    logs, settings, the three cycle statistics, the rest of the view state
    and the store are as before. *)
Theorem subscription_error_only_stops_loading (w : World) :
  let w' := failLogsSubscription w in
  loading (app w') = false
  /\ logs (app w') = logs (app w)
  /\ settings (app w') = settings (app w)
  /\ currentDay (app w') = currentDay (app w)
  /\ daysUntilNext (app w') = daysUntilNext (app w)
  /\ isPeriodToday (app w') = isPeriodToday (app w)
  /\ user (app w') = user (app w)
  /\ view (app w') = view (app w)
  /\ sidebarOpen (app w') = sidebarOpen (app w)
  /\ remote w' = remote w.
Proof. repeat split. Qed.

(** * Further properties of the code *)

(** ** Cycle statistics on arbitrary lists *)



Lemma sortDesc_nil_inv (l : list DailyLog) : sortDesc l = [] -> l = [].
Proof.
  intros Hnil. apply Permutation_nil_r. rewrite <- Hnil.
  symmetry. apply sortDesc_perm.
Qed.

Lemma find_is_existsb {A} (p : A -> bool) (l : list A) :
  match List.find p l with Some _ => true | None => false end = existsb p l.
Proof.
  induction l as [|x l IH]; [reflexivity|]. simpl. by destruct (p x).
Qed.

Lemma calculateCycleStats_periodToday (s : UserSettings) (clock : Clock)
    (currentLogs : list DailyLog) (st : AppState) :
  isPeriodToday (calculateCycleStats s clock currentLogs st)
  = existsb (fun l => (date l =? todayStr clock) && flowTruthy l) currentLogs.
Proof.
  unfold calculateCycleStats.
  destruct (flowLogs currentLogs) as [|newest fl] eqn:Hfl.
  - cbn [isPeriodToday setIsPeriodToday]. symmetry.
    apply not_true_is_false. intros (l & Hin & Hl)%existsb_exists.
    apply andb_true_iff in Hl as [_ Hflow].
    apply sortDesc_nil_inv in Hfl.
    assert (In l (List.filter flowNotNull currentLogs)) as Hmem
      by (apply filter_In; split; assumption).
    rewrite Hfl in Hmem. destruct Hmem.
  - cbn [isPeriodToday setIsPeriodToday]. apply find_is_existsb.
Qed.

(** "Period today" is shown exactly when some log dated today carries a
    flow; this holds on both paths of the function, the early return for
    a list without flow logs included. *)
Theorem period_today_iff
    (s : UserSettings) (clock : Clock) (currentLogs : list DailyLog)
    (st : AppState) :
  isPeriodToday (calculateCycleStats s clock currentLogs st) = true
  <-> exists l, In l currentLogs /\ date l = todayStr clock
                /\ flow l <> None.
Proof.
  rewrite calculateCycleStats_periodToday, existsb_exists.
  split.
  - intros (l & Hin & Hl). apply andb_true_iff in Hl as [Hd Hf].
    exists l. split; [exact Hin|]. split; [by apply Z.eqb_eq|].
    unfold flowTruthy in Hf. by destruct (flow l).
  - intros (l & Hin & Hd & Hf). exists l. split; [exact Hin|].
    apply andb_true_iff. split; [by apply Z.eqb_eq|].
    unfold flowTruthy. by destruct (flow l).
Qed.

Lemma period_today_iff_witness :
  let clock := mkClock (100 * msPerDay + 36000000) 100 in
  let today := mkLog 100 100 (Some Spotting) None [] None in
  let older := mkLog 99 99 None (Some "Happy"%string) [] None in
  isPeriodToday
    (calculateCycleStats (mkSettings 28 5) clock [older; today] initialState)
  = true.
Proof.
  intros clock today older.
  apply (period_today_iff (mkSettings 28 5) clock [older; today]).
  exists today. split; [right; left; reflexivity|].
  split; [reflexivity|discriminate].
Defined.





(** ** The statistics do not depend on the order of the list *)

Section OrderIndependence.

Let newerFirst : relation Z := fun a b => b <= a.

#[local] Instance newerFirst_trans : Transitive newerFirst.
Proof. intros a b c. unfold newerFirst. lia. Qed.

#[local] Instance newerFirst_antisymm : AntiSymm (=) newerFirst.
Proof. intros a b. unfold newerFirst. lia. Qed.

Lemma insertDesc_dates_sorted (x : DailyLog) (l : list DailyLog) :
  Sorted newerFirst (List.map date l) ->
  Sorted newerFirst (List.map date (insertDesc x l)).
Proof.
  induction l as [|y r IH]; intros Hs; [repeat constructor|].
  cbn [insertDesc]. unfold getTime.
  pose proof msPerDay_pos as HD.
  inversion Hs as [|? ? Hr Hhd]; subst.
  destruct (Z.leb_spec (date y * msPerDay - date x * msPerDay) 0).
  - cbn [List.map]. constructor; [exact Hs|]. constructor.
    unfold newerFirst. nia.
  - cbn [List.map]. constructor; [by apply IH|].
    destruct r as [|z r]; cbn [insertDesc List.map].
    + constructor. unfold newerFirst. nia.
    + destruct (_ <=? 0); cbn [List.map]; constructor.
      * unfold newerFirst. nia.
      * by inversion Hhd.
Qed.

Lemma sortDesc_dates_sorted (l : list DailyLog) :
  Sorted newerFirst (List.map date (sortDesc l)).
Proof.
  induction l as [|x l IH]; [constructor|].
  by apply insertDesc_dates_sorted.
Qed.

(** Sorting two arrangements of the same logs gives the same dates. *)
Lemma sortDesc_dates_perm (l l' : list DailyLog) :
  Permutation l l' ->
  List.map date (sortDesc l) = List.map date (sortDesc l').
Proof.
  intros Hperm.
  apply (Sorted_unique newerFirst); try apply sortDesc_dates_sorted.
  apply Permutation_map.
  by rewrite !sortDesc_perm.
Qed.

Lemma laterStarts_by_dates (rest : list DailyLog) :
  forall (rest' : list DailyLog) (prev prev' : DailyLog),
  date prev = date prev' ->
  List.map date rest = List.map date rest' ->
  laterStarts prev rest = laterStarts prev' rest'.
Proof.
  induction rest as [|curr rest IH]; intros [|curr' rest'] prev prev' Hp Hr;
    try discriminate; [reflexivity|].
  cbn [List.map] in Hr. injection Hr as Hc Hr.
  rewrite !laterStarts_cons, Hp, Hc. f_equal. by apply IH.
Qed.

Lemma predictedCycleLength_by_dates (s : UserSettings)
    (fl fl' : list DailyLog) :
  List.map date fl = List.map date fl' ->
  predictedCycleLength s fl = predictedCycleLength s fl'.
Proof.
  intros Hdates.
  assert (Hlen : length fl = length fl')
    by (rewrite <- (length_map date fl), Hdates; apply length_map).
  assert (Hstarts : periodStarts fl = periodStarts fl').
  { destruct fl as [|x fl], fl' as [|x' fl']; try discriminate;
      [reflexivity|].
    cbn [List.map] in Hdates. injection Hdates as Hx Hrest.
    cbn [periodStarts]. rewrite Hx. f_equal.
    by apply laterStarts_by_dates. }
  unfold predictedCycleLength. by rewrite Hlen, Hstarts.
Qed.

Lemma existsb_perm {A} (p : A -> bool) (l l' : list A) :
  Permutation l l' -> existsb p l = existsb p l'.
Proof.
  induction 1 as [|x l l' _ IH|x y l|l l' l'' _ IH1 _ IH2]; simpl.
  - reflexivity.
  - by rewrite IH.
  - by destruct (p x), (p y).
  - congruence.
Qed.

Lemma filter_perm {A} (p : A -> bool) (l l' : list A) :
  Permutation l l' -> Permutation (List.filter p l) (List.filter p l').
Proof.
  induction 1 as [|x l l' _ IH|x y l|l l' l'' _ IH1 _ IH2]; simpl.
  - reflexivity.
  - destruct (p x); [by constructor|exact IH].
  - destruct (p x), (p y); try reflexivity. apply perm_swap.
  - by etrans.
Qed.

(** The dashboard does not depend on the order in which the logs arrive:
    two lists with the same entries give the same current day, the same
    days until the next period and the same "period today". *)
Theorem stats_independent_of_order
    (s : UserSettings) (clock : Clock) (logs1 logs2 : list DailyLog)
    (st : AppState) :
  Permutation logs1 logs2 ->
  stats (calculateCycleStats s clock logs1 st)
  = stats (calculateCycleStats s clock logs2 st).
Proof.
  intros Hperm. unfold stats.
  rewrite !calculateCycleStats_periodToday.
  rewrite (existsb_perm _ _ _ Hperm). f_equal.
  pose proof (sortDesc_dates_perm _ _ (filter_perm flowNotNull _ _ Hperm))
    as Hdates.
  fold (flowLogs logs1) in Hdates. fold (flowLogs logs2) in Hdates.
  pose proof (predictedCycleLength_by_dates s _ _ Hdates) as Hpred.
  unfold calculateCycleStats.
  destruct (flowLogs logs1) as [|n1 fl1], (flowLogs logs2) as [|n2 fl2];
    try discriminate; [reflexivity|].
  cbn [List.map] in Hdates. injection Hdates as Hn _.
  cbn [currentDay daysUntilNext setIsPeriodToday setDaysUntilNext
       setCurrentDay].
  by rewrite Hn, Hpred.
Qed.

End OrderIndependence.

Lemma stats_independent_of_order_witness :
  let entry d := mkLog d d (Some Medium) None [] None in
  let clock := mkClock (100 * msPerDay + 36000000) 100 in
  Permutation [entry 77; entry 99; entry 78] [entry 99; entry 78; entry 77]
  /\ stats (calculateCycleStats (mkSettings 30 5) clock
              [entry 77; entry 99; entry 78] initialState)
     = (2, 19, false).
Proof.
  intros entry clock.
  assert (Hperm : Permutation [entry 77; entry 99; entry 78]
                    [entry 99; entry 78; entry 77]).
  { change [entry 77; entry 99; entry 78]
      with ([entry 77] ++ [entry 99; entry 78]).
    change [entry 99; entry 78; entry 77]
      with ([entry 99; entry 78] ++ [entry 77]).
    apply Permutation_app_comm. }
  split; [exact Hperm|].
  rewrite (stats_independent_of_order (mkSettings 30 5) clock _ _
             initialState Hperm).
  reflexivity.
Defined.

(** ** Calendar overlay on arbitrary dates *)

Lemma lastPeriodStart_without_flow (logs : list DailyLog) :
  Forall (fun l => flow l = None) logs -> lastPeriodStart logs = None.
Proof.
  intros Hnone. unfold lastPeriodStart, periodDays.
  replace (List.filter flowTruthy logs) with (@nil DailyLog); [reflexivity|].
  symmetry. induction Hnone as [|l r Hl _ IH]; [reflexivity|].
  simpl. unfold flowTruthy at 1. by rewrite Hl.
Qed.

Lemma getDaysBetween_dates (a b : Z) :
  getDaysBetween (getTime a) (getTime b) = Z.abs (a - b).
Proof.
  unfold getDaysBetween, getTime.
  rewrite <- Z.mul_sub_distr_r, Z.abs_mul.
  rewrite (Z.abs_eq msPerDay) by (pose proof msPerDay_pos; lia).
  apply Math_round_div_days.
Qed.

(** The two overlay flags of a future date, in terms of its distance [n]
    in days from the last period start. *)
Lemma getDateStatus_future (logs : list DailyLog) (s : UserSettings)
    (clock : Clock) (d lastStart : Z) :
  lastPeriodStart logs = Some lastStart ->
  nowMs clock < getTime d ->
  let n := Z.abs (d - lastStart) in
  let c := cycleLength s in
  let p := periodLength s in
  isPredicted (getDateStatus logs s clock d)
  = nanTest (jsRem n c) (fun v => v <? p) && (0 <? n)
    && ((c <=? n) && (n <? c + p))
  /\ isFertile (getDateStatus logs s clock d)
     = nanTest (jsRem n c) (fun v => c - 14 - 4 <=? v)
       && nanTest (jsRem n c) (fun v => v <=? c - 14 + 1).
Proof.
  intros Hlast Hfuture n c p. unfold getDateStatus. rewrite Hlast.
  rewrite diffDays_between_dates, getDaysBetween_dates.
  destruct (Z.ltb_spec (nowMs clock) (getTime d)); [|lia].
  cbn [isPredicted isFertile].
  replace (Z.abs (lastStart - d)) with (Z.abs (d - lastStart)) by lia.
  split; reflexivity.
Qed.

Lemma getDateStatus_not_future (logs : list DailyLog) (s : UserSettings)
    (clock : Clock) (d : Z) :
  getTime d <= nowMs clock ->
  isPredicted (getDateStatus logs s clock d) = false
  /\ isFertile (getDateStatus logs s clock d) = false.
Proof.
  intros Hpast. unfold getDateStatus.
  destruct (lastPeriodStart logs); [|split; reflexivity].
  destruct (Z.ltb_spec (nowMs clock) (getTime d)); [lia|].
  split; reflexivity.
Qed.

(** Nothing is projected without history or into the past: when no log
    carries a flow, or when the date's instant is not after now, the date
    is neither predicted nor fertile. *)
Theorem no_overlay_without_history_or_in_past
    (logs : list DailyLog) (s : UserSettings) (clock : Clock) (d : Z) :
  Forall (fun l => flow l = None) logs \/ getTime d <= nowMs clock ->
  isPredicted (getDateStatus logs s clock d) = false
  /\ isFertile (getDateStatus logs s clock d) = false.
Proof.
  intros [Hnone|Hpast].
  - unfold getDateStatus.
    rewrite (lastPeriodStart_without_flow logs Hnone). split; reflexivity.
  - by apply getDateStatus_not_future.
Qed.

Lemma no_overlay_without_history_or_in_past_witness :
  let entry := mkLog 99 99 (Some Medium) None [] None in
  let clock := mkClock (130 * msPerDay + 36000000) 130 in
  getTime 127 <= nowMs clock
  /\ isPredicted (getDateStatus [entry] (mkSettings 28 5) clock 127) = false
  /\ isFertile (getDateStatus [entry] (mkSettings 28 5) clock 127) = false.
Proof.
  intros entry clock.
  assert (Hpast : getTime 127 <= nowMs clock) by (vm_compute; discriminate).
  split; [exact Hpast|].
  apply (no_overlay_without_history_or_in_past [entry] (mkSettings 28 5)
           clock 127).
  right. exact Hpast.
Defined.

(** A cycle length of 0, which the settings form stores for an emptied
    field, switches the overlay off: the remainder is [NaN] and no date is
    predicted or fertile. *)
Theorem zero_cycle_length_switches_overlay_off
    (logs : list DailyLog) (s : UserSettings) (clock : Clock) (d : Z) :
  cycleLength s = 0 ->
  isPredicted (getDateStatus logs s clock d) = false
  /\ isFertile (getDateStatus logs s clock d) = false.
Proof.
  intros Hzero. unfold getDateStatus.
  destruct (lastPeriodStart logs); [|split; reflexivity].
  destruct (nowMs clock <? getTime d); [|split; reflexivity].
  cbn [isPredicted isFertile]. rewrite Hzero. split; reflexivity.
Qed.

Lemma zero_cycle_length_switches_overlay_off_witness :
  let entry := mkLog 99 99 (Some Medium) None [] None in
  let clock := mkClock (100 * msPerDay) 100 in
  Forall (fun d =>
            isPredicted (getDateStatus [entry] (mkSettings 0 5) clock d) = false
            /\ isFertile (getDateStatus [entry] (mkSettings 0 5) clock d) = false)
    [101; 109; 127; 128].
Proof.
  intros entry clock.
  repeat (constructor;
          [apply (zero_cycle_length_switches_overlay_off [entry]
                    (mkSettings 0 5) clock); reflexivity|]).
  constructor.
Defined.





(** When the period length leaves 18 days of the cycle free (as the
    defaults 28 and 5 do), no date is both predicted and fertile, so the
    order in which the calendar picks a cell style decides nothing. *)
Theorem predicted_and_fertile_disjoint
    (logs : list DailyLog) (s : UserSettings) (clock : Clock) (d : Z) :
  0 < cycleLength s ->
  periodLength s + 18 <= cycleLength s ->
  ~ (isPredicted (getDateStatus logs s clock d) = true
     /\ isFertile (getDateStatus logs s clock d) = true).
Proof.
  intros Hc Hroom [Hpred Hfert].
  destruct (lastPeriodStart logs) as [lastStart|] eqn:Hlast;
    [|unfold getDateStatus in Hpred; rewrite Hlast in Hpred; discriminate].
  destruct (Z.ltb_spec (nowMs clock) (getTime d)) as [Hfuture|Hpast].
  - destruct (getDateStatus_future logs s clock d lastStart Hlast Hfuture)
      as [Hp Hf].
    rewrite Hp in Hpred. rewrite Hf in Hfert. clear Hp Hf.
    unfold jsRem in *. destruct (Z.eqb_spec (cycleLength s) 0); [lia|].
    cbn [nanTest] in *.
    rewrite Z.rem_mod_nonneg in * by lia.
    rewrite !andb_true_iff, ?Z.leb_le, ?Z.ltb_lt in Hpred, Hfert.
    pose proof (Z.div_mod (Z.abs (d - lastStart)) (cycleLength s)
                  ltac:(lia)) as Hdm.
    assert (1 <= Z.abs (d - lastStart) / cycleLength s)
      by (apply Z.div_le_lower_bound; lia).
    nia.
  - destruct (getDateStatus_not_future logs s clock d Hpast) as [Hp _].
    congruence.
Qed.

Lemma predicted_and_fertile_disjoint_witness :
  let entry := mkLog 99 99 (Some Medium) None [] None in
  let clock := mkClock (100 * msPerDay + 36000000) 100 in
  isPredicted (getDateStatus [entry] (mkSettings 28 5) clock 127) = true
  /\ isFertile (getDateStatus [entry] (mkSettings 28 5) clock 127) <> true.
Proof.
  intros entry clock. split; [reflexivity|]. intros Hf.
  apply (predicted_and_fertile_disjoint [entry] (mkSettings 28 5) clock 127);
    [reflexivity|vm_compute; discriminate|].
  split; [reflexivity|exact Hf].
Defined.

(** ** Saves: what else they touch, and saving twice *)

Section SaveFrame.

Variables (clock : Clock) (data : LogData).

Lemma optimisticUpdate_other_dates (prev : list DailyLog) (k : Z) :
  k <> d_date data ->
  List.filter (fun l => date l =? k) (optimisticUpdate clock data prev)
  = List.filter (fun l => date l =? k) prev.
Proof.
  intros Hk. unfold optimisticUpdate.
  destruct (List.find _ prev) as [found|].
  - clear found. induction prev as [|x prev IH]; [reflexivity|].
    cbn [List.map List.filter].
    destruct (Z.eqb_spec (date x) (d_date data)) as [Hx|Hx].
    + cbn [date mergeIntoLog].
      destruct (Z.eqb_spec (d_date data) k); [congruence|].
      destruct (Z.eqb_spec (date x) k); [congruence|]. exact IH.
    + destruct (date x =? k); [f_equal|]; exact IH.
  - cbn [List.filter date newLog].
    destruct (Z.eqb_spec (d_date data) k); [congruence|reflexivity].
Qed.

Lemma mergeIntoLog_twice (l : DailyLog) :
  mergeIntoLog (mergeIntoLog l data) data = mergeIntoLog l data.
Proof.
  unfold mergeIntoLog. cbn [id date flow mood symptoms createdAt].
  destruct (d_flow data), (d_mood data), (d_symptoms data); reflexivity.
Qed.

Lemma mergeIntoLog_newLog :
  mergeIntoLog (newLog clock data) data = newLog clock data.
Proof.
  unfold mergeIntoLog, newLog. cbn [id date flow mood symptoms createdAt].
  destruct (d_flow data), (d_mood data), (d_symptoms data); reflexivity.
Qed.

Lemma map_merge_absent (prev : list DailyLog) :
  List.find (fun l => date l =? d_date data) prev = None ->
  List.map (fun l => if date l =? d_date data then mergeIntoLog l data else l)
    prev = prev.
Proof.
  induction prev as [|x prev IH]; [reflexivity|].
  cbn [List.find List.map].
  destruct (date x =? d_date data); [discriminate|].
  intros Hnone. by rewrite IH.
Qed.

Lemma map_merge_twice (prev : list DailyLog) :
  let mergeHere l :=
    if date l =? d_date data then mergeIntoLog l data else l in
  List.map mergeHere (List.map mergeHere prev) = List.map mergeHere prev.
Proof.
  intros mergeHere. rewrite List.map_map. apply List.map_ext.
  intros l. unfold mergeHere.
  destruct (Z.eqb_spec (date l) (d_date data)) as [Hl|Hl].
  - cbn [date mergeIntoLog]. rewrite Z.eqb_refl. apply mergeIntoLog_twice.
  - by destruct (Z.eqb_spec (date l) (d_date data)).
Qed.

(** The local update is idempotent, whatever the time of the second
    call. *)
Lemma optimisticUpdate_twice (clock2 : Clock) (prev : list DailyLog) :
  optimisticUpdate clock2 data (optimisticUpdate clock data prev)
  = optimisticUpdate clock data prev.
Proof.
  destruct (List.find (fun l => date l =? d_date data) prev)
    as [found|] eqn:Hfind.
  - assert (Hfirst : optimisticUpdate clock data prev
                     = List.map (fun l => if date l =? d_date data
                                          then mergeIntoLog l data else l) prev)
      by (unfold optimisticUpdate; by rewrite Hfind).
    rewrite Hfirst. unfold optimisticUpdate.
    rewrite (find_sameDate_map data prev found Hfind).
    apply map_merge_twice.
  - assert (Hfirst : optimisticUpdate clock data prev
                     = newLog clock data :: prev)
      by (unfold optimisticUpdate; by rewrite Hfind).
    rewrite Hfirst. unfold optimisticUpdate. cbn [List.find].
    change (date (newLog clock data)) with (d_date data).
    rewrite Z.eqb_refl. cbn [List.map].
    change (date (newLog clock data)) with (d_date data).
    rewrite Z.eqb_refl, mergeIntoLog_newLog. f_equal.
    by apply map_merge_absent.
Qed.

Lemma mergeDoc_twice (old : option LogData) :
  mergeDoc (Some (mergeDoc old data)) data = mergeDoc old data.
Proof.
  destruct old as [o|]; unfold mergeDoc;
    cbn [d_date d_flow d_mood d_symptoms].
  - destruct (d_flow data), (d_mood data), (d_symptoms data); reflexivity.
  - destruct data as [dd [f|] [m|] [ss|]]; reflexivity.
Qed.

Lemma writeLog_twice (docs : gmap Z LogData) :
  writeLog data (writeLog data docs) = writeLog data docs.
Proof.
  unfold writeLog. destruct (clearsAllData data).
  - apply map_eq. intros k. destruct (decide (k = d_date data)) as [->|Hk].
    + by rewrite !lookup_delete_eq.
    + by rewrite !lookup_delete_ne.
  - rewrite lookup_insert_eq, mergeDoc_twice. apply insert_insert_eq.
Qed.

End SaveFrame.

(** A save touches one date only: every other stored record and every
    local entry of another date stay as they were, and so do the settings
    document and the statistics on the dashboard, which are recomputed
    only when a snapshot arrives. *)
Theorem save_leaves_other_dates_alone
    (clock : Clock) (data : LogData) (w : World) (k : Z) :
  k <> d_date data ->
  let w' := handleLogSave clock data w in
  logDocs (remote w') !! k = logDocs (remote w) !! k
  /\ List.filter (fun l => date l =? k) (logs (app w'))
     = List.filter (fun l => date l =? k) (logs (app w))
  /\ settingsDoc (remote w') = settingsDoc (remote w)
  /\ stats (app w') = stats (app w).
Proof.
  intros Hk w'. unfold w'. rewrite handleLogSave_docs, handleLogSave_logs.
  split; [|split].
  - destruct (user (app w)); [|reflexivity].
    by apply writeLog_lookup_other.
  - by apply optimisticUpdate_other_dates.
  - unfold handleLogSave. destruct (user (app w)); split; reflexivity.
Qed.

Lemma save_leaves_other_dates_alone_witness :
  let clock := mkClock (12 * msPerDay) 12 in
  let stored := mkData 10 (Some (Some Light)) (Some None) (Some []) in
  let w := mkWorld
             (mkState (Some "uid"%string) log [docToLog (10, stored)]
                (mkSettings 28 5) false false 3 25 false)
             (mkStore {[ 10 := stored ]} None) in
  let w' := handleLogSave clock (mkData 11 (Some (Some Heavy)) None None) w in
  logDocs (remote w') !! 10 = Some stored
  /\ stats (app w') = (3, 25, false).
Proof.
  intros clock stored w w'.
  destruct (save_leaves_other_dates_alone clock
              (mkData 11 (Some (Some Heavy)) None None) w 10)
    as (Hdoc & _ & _ & Hstats); [discriminate|].
  fold w' in Hdoc, Hstats. split.
  - rewrite Hdoc. apply lookup_singleton_eq.
  - rewrite Hstats. reflexivity.
Defined.

(** Saving the same payload a second time changes nothing, locally or in
    the store, whenever the second save happens. *)
Theorem save_is_idempotent (clock1 clock2 : Clock) (data : LogData)
    (w : World) :
  handleLogSave clock2 data (handleLogSave clock1 data w)
  = handleLogSave clock1 data w.
Proof.
  unfold handleLogSave at 1.
  rewrite handleLogSave_user, handleLogSave_logs.
  rewrite optimisticUpdate_twice.
  unfold handleLogSave.
  destruct (user (app w)); cbn [app remote logDocs settingsDoc setLogs
    user view settings loading sidebarOpen currentDay daysUntilNext
    isPeriodToday logs]; [|reflexivity].
  by rewrite writeLog_twice.
Qed.

(** Signed out, no handler writes to the store: a save and a toggle
    change the local list only, and a settings save does nothing at all,
    not even the switch back to the dashboard. *)
Theorem signed_out_nothing_is_stored
    (clock : Clock) (data : LogData) (d : Z) (s : UserSettings) (w : World) :
  user (app w) = None ->
  remote (handleLogSave clock data w) = remote w
  /\ logs (app (handleLogSave clock data w))
     = optimisticUpdate clock data (logs (app w))
  /\ remote (handleTogglePeriod clock d w) = remote w
  /\ handleSaveSettings s w = w.
Proof.
  intros Huser.
  assert (Hsave : forall data', remote (handleLogSave clock data' w) = remote w).
  { intros data'. unfold handleLogSave. by rewrite Huser. }
  split; [apply Hsave|]. split; [apply handleLogSave_logs|].
  split; [rewrite handleTogglePeriod_payload; apply Hsave|].
  unfold handleSaveSettings. by rewrite Huser.
Qed.

Lemma signed_out_nothing_is_stored_witness :
  let clock := mkClock (12 * msPerDay) 12 in
  let w' := handleTogglePeriod clock 10 initialWorld in
  user (app initialWorld) = None
  /\ remote w' = remote initialWorld
  /\ List.map date (logs (app w')) = [10].
Proof.
  intros clock w'.
  destruct (signed_out_nothing_is_stored clock
              (mkData 10 None None None) 10 (mkSettings 30 4) initialWorld
              eq_refl) as (_ & _ & Htoggle & _).
  split; [reflexivity|]. split; [exact Htoggle|reflexivity].
Defined.

(** ** Local list and store side by side *)

Lemma default_orElse {A} (d : A) (new old : option A) :
  default d (orElse new old) = default (default d old) new.
Proof. by destruct new. Qed.

(** The optimistic update predicts the store.  If the local entry of the
    saved date shows what the stored record holds (or neither exists) and
    the payload does not clear all data, then after a signed-in save the
    local entry again shows exactly what the stored record holds. *)
Theorem optimistic_update_matches_store
    (clock : Clock) (data : LogData) (w : World) :
  user (app w) <> None ->
  clearsAllData data = false ->
  match List.find (fun l => date l =? d_date data) (logs (app w)),
        logDocs (remote w) !! d_date data with
  | Some l, Some doc => sameContent l (docToLog (d_date data, doc))
  | None, None => True
  | _, _ => False
  end ->
  let w' := handleLogSave clock data w in
  exists l' doc',
    List.find (fun l => date l =? d_date data) (logs (app w')) = Some l'
    /\ logDocs (remote w') !! d_date data = Some doc'
    /\ sameContent l' (docToLog (d_date data, doc')).
Proof.
  intros Huser Hkeep Hsync w'. unfold w'.
  rewrite handleLogSave_logs, handleLogSave_docs.
  destruct (user (app w)); [|done].
  rewrite writeLog_lookup, Hkeep.
  destruct (List.find _ (logs (app w))) as [l|] eqn:Hfind;
    destruct (logDocs (remote w) !! d_date data) as [doc|]; try done.
  - exists (mergeIntoLog l data), (mergeDoc (Some doc) data).
    split; [|split; [reflexivity|]].
    + unfold optimisticUpdate. rewrite Hfind.
      by apply (find_sameDate_map data).
    + destruct Hsync as (_ & Hf & Hm & Hs).
      cbn [docToLog flow mood symptoms snd] in Hf, Hm, Hs.
      unfold sameContent, mergeIntoLog, mergeDoc, docToLog.
      cbn [date flow mood symptoms fst snd d_date d_flow d_mood d_symptoms].
      rewrite !default_orElse, Hf, Hm, Hs. done.
  - exists (newLog clock data), data.
    split; [|split; [reflexivity|]].
    + unfold optimisticUpdate. rewrite Hfind. cbn [List.find].
      change (date (newLog clock data)) with (d_date data).
      by rewrite Z.eqb_refl.
    + repeat split.
Qed.

Lemma optimistic_update_matches_store_witness :
  let clock := mkClock (12 * msPerDay) 12 in
  let stored := mkData 10 (Some (Some Light)) None None in
  let w := mkWorld
             (mkState (Some "uid"%string) log [docToLog (10, stored)]
                (mkSettings 28 5) false false 1 28 false)
             (mkStore {[ 10 := stored ]} None) in
  let data := mkData 10 None (Some (Some "Happy"%string)) None in
  let w' := handleLogSave clock data w in
  clearsAllData data = false
  /\ exists l' doc',
       List.find (fun l => date l =? 10) (logs (app w')) = Some l'
       /\ logDocs (remote w') !! 10 = Some doc'
       /\ sameContent l' (docToLog (10, doc'))
       /\ flow l' = Some Light /\ mood l' = Some "Happy"%string.
Proof.
  intros clock stored w data w'. split; [reflexivity|].
  destruct (optimistic_update_matches_store clock data w)
    as (l' & doc' & Hl' & Hdoc' & Hsame);
    [discriminate|reflexivity| |].
  { cbn [w app logs remote logDocs List.find docToLog date fst snd d_date data].
    rewrite lookup_singleton_eq. repeat split. }
  exists l', doc'. fold w' in Hl', Hdoc'.
  split; [exact Hl'|]. split; [exact Hdoc'|]. split; [exact Hsame|].
  vm_compute in Hl'. injection Hl' as <-. split; reflexivity.
Defined.

(** A payload with all three keys, which is what the daily logger sends,
    replaces the stored record outright: the record becomes the payload
    itself, or is deleted, and it is deleted exactly when the save would
    leave every field empty. *)
Theorem logger_payload_replaces_record
    (data : LogData) (docs : gmap Z LogData) :
  fullPayload data ->
  wouldLeaveEmpty (docs !! d_date data) data = clearsAllData data
  /\ writeLog data docs !! d_date data
     = if wouldLeaveEmpty (docs !! d_date data) data then None
       else Some data.
Proof.
  intros ([f Hf] & [m Hm] & [ss Hs]).
  assert (Hmerge : mergeDoc (docs !! d_date data) data = data).
  { destruct data as [dd df dm ds]. cbn in Hf, Hm, Hs. subst.
    by destruct (docs !! _). }
  unfold wouldLeaveEmpty. rewrite Hmerge. split; [reflexivity|].
  rewrite writeLog_lookup, Hmerge. reflexivity.
Qed.

Lemma logger_payload_replaces_record_witness :
  let stored :=
    mkData 10 (Some (Some Medium)) (Some (Some "Happy"%string))
      (Some ["Cramps"%string]) in
  let data :=
    DailyLogger_handleSave 10 (mkLogger None (Some Light) []) in
  fullPayload data
  /\ writeLog data {[ 10 := stored ]} !! 10 = Some data.
Proof.
  intros stored data.
  assert (Hfull : fullPayload data) by (repeat split; eexists; reflexivity).
  split; [exact Hfull|].
  destruct (logger_payload_replaces_record data {[ 10 := stored ]} Hfull)
    as [Hempty Hwrite].
  cbn [d_date data DailyLogger_handleSave] in Hwrite, Hempty.
  rewrite Hwrite, Hempty. reflexivity.
Defined.

(** ** The daily logger *)

Lemma moodOrNull_id (l : DailyLog) :
  mood l <> Some ""%string -> moodOrNull (Some l) = mood l.
Proof.
  intros Hmood. unfold moodOrNull. destruct (mood l) as [m|]; [|reflexivity].
  destruct (String.eqb_spec m ""); [congruence|reflexivity].
Qed.

(** Opening the logger on an existing log and saving without an edit
    leaves the local list as it was (for a list with one entry per date
    and a mood that is not the empty string, which the logger turns into
    [null]). *)
Theorem unedited_logger_save_changes_nothing
    (clock : Clock) (prev : list DailyLog) (l : DailyLog) :
  NoDup (List.map date prev) ->
  In l prev ->
  mood l <> Some ""%string ->
  let data := DailyLogger_handleSave (date l) (DailyLogger_init (Some l)) in
  optimisticUpdate clock data prev = prev.
Proof.
  intros Hnodup Hin Hmood data.
  assert (Hself : mergeIntoLog l data = l).
  { unfold data, DailyLogger_handleSave, DailyLogger_init, mergeIntoLog.
    cbn [d_date d_flow d_mood d_symptoms lg_flow lg_mood lg_symptoms].
    rewrite (moodOrNull_id l Hmood). by destruct l. }
  assert (Hfound : List.find (fun x => date x =? d_date data) prev <> None).
  { intros Hnone. apply (find_none _ _ Hnone) in Hin.
    cbn [data DailyLogger_handleSave d_date] in Hin.
    by rewrite Z.eqb_refl in Hin. }
  unfold optimisticUpdate.
  destruct (List.find _ prev) as [found|]; [clear found Hfound|done].
  rewrite <- (List.map_id prev) at 2. apply List.map_ext_in.
  intros x Hx. cbn [data DailyLogger_handleSave d_date].
  destruct (Z.eqb_spec (date x) (date l)) as [Hdate|]; [|reflexivity].
  assert (x = l) as ->; [|exact Hself].
  clear -Hnodup Hin Hx Hdate.
  induction prev as [|y prev IH]; [destruct Hin|].
  cbn [List.map] in Hnodup. apply NoDup_cons in Hnodup as [Hy Hnodup].
  rewrite list_elem_of_In in Hy.
  destruct Hin as [->|Hin], Hx as [->|Hx]; auto.
  - exfalso. apply Hy. rewrite <- Hdate. by apply in_map.
  - exfalso. apply Hy. rewrite Hdate. by apply in_map.
Qed.

Lemma unedited_logger_save_changes_nothing_witness :
  let clock := mkClock (12 * msPerDay) 12 in
  let l := mkLog 10 10 (Some Heavy) (Some "Sad"%string) ["Cramps"%string]
             None in
  let other := mkLog 11 11 None None [] None in
  optimisticUpdate clock
    (DailyLogger_handleSave 10 (DailyLogger_init (Some l))) [other; l]
  = [other; l].
Proof.
  intros clock l other.
  apply (unedited_logger_save_changes_nothing clock [other; l] l).
  - cbn [List.map date]. apply NoDup_ListNoDup.
    constructor; [intros [Heq|[]]; discriminate|].
    constructor; [intros []|constructor].
  - right. left. reflexivity.
  - discriminate.
Defined.

(** ** The calendar toggle on any date *)

(** The toggle flips the period mark of a date and keeps its notes in the
    local list: an entry with a flow loses it, an entry without gets
    Medium, mood and symptoms stay, and a date without an entry gets a
    fresh entry with Medium.  The intensity is not remembered: toggling
    Heavy off and on again gives Medium. *)
Theorem toggle_flips_period_and_keeps_notes
    (clock : Clock) (d : Z) (w : World) :
  let w' := handleTogglePeriod clock d w in
  exists l',
    List.find (fun l => date l =? d) (logs (app w')) = Some l'
    /\ match List.find (fun l => date l =? d) (logs (app w)) with
       | Some l =>
           flow l' = match flow l with
                     | Some _ => None
                     | None => Some Medium
                     end
           /\ mood l' = mood l /\ symptoms l' = symptoms l
       | None => flow l' = Some Medium /\ mood l' = None /\ symptoms l' = []
       end.
Proof.
  intros w'. unfold w'.
  rewrite handleTogglePeriod_payload, handleLogSave_logs.
  unfold togglePayload, localFlow, optimisticUpdate.
  destruct (List.find (fun l => date l =? d) (logs (app w)))
    as [l|] eqn:Hfind.
  - destruct (flow l) as [f|] eqn:Hflow; cbn [d_date]; rewrite Hfind.
    + eexists. split.
      * apply (find_sameDate_map (mkData d (Some None) None None) _ l Hfind).
      * repeat split.
    + eexists. split.
      * apply (find_sameDate_map (mkData d (Some (Some Medium)) None None)
                 _ l Hfind).
      * repeat split.
  - cbn [d_date]. rewrite Hfind. eexists. split.
    + cbn [List.find date newLog d_date]. by rewrite Z.eqb_refl.
    + repeat split.
Qed.

(** ** Snapshots *)

Lemma queryLogs_In (docs : gmap Z LogData) (l : DailyLog) :
  In l (queryLogs docs)
  <-> exists k doc, docs !! k = Some doc /\ l = docToLog (k, doc).
Proof.
  unfold queryLogs.
  rewrite <- list_elem_of_In, (sortDesc_perm _), list_elem_of_In, in_map_iff.
  split.
  - intros ([k doc] & <- & Hin%list_elem_of_In%elem_of_map_to_list). eauto.
  - intros (k & doc & Hdoc & ->). exists (k, doc). split; [reflexivity|].
    by apply list_elem_of_In, elem_of_map_to_list.
Qed.

Lemma snapshot_logs (captured : UserSettings) (clock : Clock) (w : World) :
  logs (app (step clock w (OpSnapshot captured)))
  = queryLogs (logDocs (remote w)).
Proof.
  cbn [step app]. unfold onLogsSnapshot.
  change (logs (setLoading false ?st)) with (logs st).
  by rewrite calculateCycleStats_logs.
Qed.

(** A delivered snapshot makes the local list the image of the store: its
    entries are exactly the stored records, one per date, newest first;
    the loading indicator is off and the statistics are those of the new
    list. *)
Theorem snapshot_lists_store_newest_first
    (captured : UserSettings) (clock : Clock) (w : World) :
  (forall k doc, logDocs (remote w) !! k = Some doc -> d_date doc = k) ->
  let w' := step clock w (OpSnapshot captured) in
  (forall l, In l (logs (app w')) <->
             exists k doc, logDocs (remote w) !! k = Some doc
                           /\ l = docToLog (k, doc))
  /\ NoDup (List.map date (logs (app w')))
  /\ Sorted (fun a b => b <= a) (List.map date (logs (app w')))
  /\ loading (app w') = false
  /\ stats (app w')
     = stats (calculateCycleStats captured clock (logs (app w')) (app w)).
Proof.
  intros Hkeys w'. unfold w'. rewrite snapshot_logs.
  split; [apply queryLogs_In|]. split; [by apply queryLogs_NoDup|].
  split; [apply sortDesc_dates_sorted|]. split; [reflexivity|].
  cbn [step app]. unfold onLogsSnapshot, stats, calculateCycleStats.
  destruct (flowLogs (queryLogs (logDocs (remote w)))); reflexivity.
Qed.

Lemma snapshot_lists_store_newest_first_witness :
  let clock := mkClock (12 * msPerDay) 12 in
  let doc d := mkData d (Some (Some Light)) None None in
  let docs : gmap Z LogData := <[ 3 := doc 3 ]> (<[ 11 := doc 11 ]> ∅) in
  let w := mkWorld initialState (mkStore docs None) in
  let w' := step clock w (OpSnapshot (mkSettings 28 5)) in
  NoDup (List.map date (logs (app w')))
  /\ List.map date (logs (app w')) = [11; 3].
Proof.
  intros clock doc docs w w'.
  assert (Hkeys : forall k d', logDocs (remote w) !! k = Some d' ->
                               d_date d' = k).
  { intros k d'. cbn [w remote logDocs]. unfold docs.
    destruct (decide (k = 3)) as [->|]; [rewrite lookup_insert_eq; by intros [= <-]|].
    rewrite lookup_insert_ne by done.
    destruct (decide (k = 11)) as [->|]; [rewrite lookup_insert_eq; by intros [= <-]|].
    rewrite lookup_insert_ne, lookup_empty by done. discriminate. }
  destruct (snapshot_lists_store_newest_first (mkSettings 28 5) clock w Hkeys)
    as (_ & Hnodup & _).
  split; [exact Hnodup|reflexivity].
Defined.

(** The entry a clearing save leaves behind in the local list goes with
    the next snapshot: the record is deleted from the store, and the
    snapshot lists only what is stored. *)
Theorem cleared_entry_goes_with_next_snapshot
    (clock1 clock2 : Clock) (data : LogData) (captured : UserSettings)
    (w : World) :
  user (app w) <> None ->
  clearsAllData data = true ->
  (forall k doc, logDocs (remote w) !! k = Some doc -> d_date doc = k) ->
  let w1 := handleLogSave clock1 data w in
  let w2 := step clock2 w1 (OpSnapshot captured) in
  In (d_date data) (List.map date (logs (app w1)))
  /\ ~ In (d_date data) (List.map date (logs (app w2))).
Proof.
  intros Huser Hclears Hkeys w1 w2. split.
  - unfold w1. rewrite handleLogSave_logs.
    destruct (optimisticUpdate_dates clock1 data (logs (app w)))
      as [(Hin & _ & ->)|(_ & _ & ->)]; [exact Hin|by left].
  - unfold w2. rewrite snapshot_logs. intros Hin.
    apply in_map_iff in Hin as (l & Hdate & Hl).
    apply queryLogs_In in Hl as (k & doc & Hdoc & ->).
    cbn [docToLog date snd] in Hdate.
    unfold w1 in Hdoc. rewrite handleLogSave_docs in Hdoc.
    destruct (user (app w)); [|done].
    assert (k = d_date data) as ->.
    { rewrite <- Hdate. symmetry.
      apply (writeLog_keyed_by_date data _ Hkeys k doc Hdoc). }
    pose proof (proj2 (writeLog_deletes_iff data (logDocs (remote w)))
                  Hclears) as Hgone.
    congruence.
Qed.

Lemma cleared_entry_goes_with_next_snapshot_witness :
  let clock := mkClock (12 * msPerDay) 12 in
  let stored := mkData 10 (Some (Some Light)) (Some None) (Some []) in
  let w := mkWorld
             (mkState (Some "uid"%string) log [docToLog (10, stored)]
                (mkSettings 28 5) false false 1 28 false)
             (mkStore {[ 10 := stored ]} None) in
  let data := mkData 10 (Some None) (Some None) (Some []) in
  let w1 := handleLogSave clock data w in
  let w2 := step clock w1 (OpSnapshot (mkSettings 28 5)) in
  List.map date (logs (app w1)) = [10]
  /\ ~ In 10 (List.map date (logs (app w2))).
Proof.
  intros clock stored w data w1 w2. split; [reflexivity|].
  apply (cleared_entry_goes_with_next_snapshot clock clock data
           (mkSettings 28 5) w); [discriminate|reflexivity|].
  intros k doc. cbn [w remote logDocs].
  destruct (decide (k = 10)) as [->|Hk].
  - rewrite lookup_singleton_eq. by intros [= <-].
  - rewrite lookup_singleton_ne by done. discriminate.
Defined.

(** ** Settings through the store *)

Lemma readSettings_settingsFields (s : UserSettings) :
  readSettings (settingsFields s) = Some s.
Proof.
  unfold readSettings, settingsFields.
  rewrite lookup_insert_eq, lookup_insert_ne, lookup_insert_eq by done.
  by destruct s.
Qed.

(** Saved settings come back: after a signed-in save, the next settings
    snapshot puts exactly the saved values into the state and leaves the
    store alone. *)
Theorem saved_settings_come_back (s : UserSettings) (w : World) :
  user (app w) <> None ->
  exists w',
    onSettingsSnapshot (handleSaveSettings s w) = Some w'
    /\ settings (app w') = s
    /\ view (app w') = dashboard
    /\ remote w' = remote (handleSaveSettings s w).
Proof.
  intros Huser. unfold handleSaveSettings.
  destruct (user (app w)); [|done].
  unfold onSettingsSnapshot. cbn [remote settingsDoc].
  rewrite readSettings_settingsFields. eexists. split; [reflexivity|].
  repeat split.
Qed.

Lemma saved_settings_come_back_witness :
  let w := mkWorld (mkState (Some "uid"%string) settingsView []
                      (mkSettings 28 5) false false 1 28 false)
             (mkStore ∅ None) in
  exists w',
    onSettingsSnapshot (handleSaveSettings (mkSettings 31 4) w) = Some w'
    /\ settings (app w') = mkSettings 31 4.
Proof.
  intros w.
  destruct (saved_settings_come_back (mkSettings 31 4) w)
    as (w' & Hsnap & Hsettings & _); [discriminate|].
  exists w'. split; assumption.
Defined.

(** First access: without a settings document the snapshot callback
    creates it with the defaults 28 and 5 and leaves the state alone; the
    snapshot of the new document then reads those defaults. *)
Theorem first_access_creates_default_settings (w : World) :
  settingsDoc (remote w) = None ->
  exists w1 w2,
    onSettingsSnapshot w = Some w1
    /\ app w1 = app w
    /\ logDocs (remote w1) = logDocs (remote w)
    /\ settingsDoc (remote w1) = Some (settingsFields (mkSettings 28 5))
    /\ onSettingsSnapshot w1 = Some w2
    /\ settings (app w2) = mkSettings 28 5.
Proof.
  intros Hnone. unfold onSettingsSnapshot at 1. rewrite Hnone.
  eexists _, _. split; [reflexivity|].
  do 3 (split; [reflexivity|]).
  unfold onSettingsSnapshot. cbn [remote settingsDoc].
  rewrite readSettings_settingsFields. split; reflexivity.
Qed.

Lemma first_access_creates_default_settings_witness :
  exists w1 w2,
    onSettingsSnapshot initialWorld = Some w1
    /\ settingsDoc (remote w1) = Some (settingsFields (mkSettings 28 5))
    /\ onSettingsSnapshot w1 = Some w2
    /\ settings (app w2) = mkSettings 28 5.
Proof.
  destruct (first_access_creates_default_settings initialWorld eq_refl)
    as (w1 & w2 & H1 & _ & _ & Hdoc & H2 & Hs).
  exists w1, w2. repeat (split; [assumption|]). assumption.
Defined.

(** ** Settings input *)

Lemma parseInt_no_number (c : N) (r : list N) :
  isWhiteSpace c = false -> c <> 43%N -> c <> 45%N ->
  radixDigit 10 c = None ->
  parseInt (c :: r) = NaN.
Proof.
  intros Hws Hplus Hminus Hdigit. unfold parseInt. cbn [trimStart].
  rewrite Hws.
  destruct (N.eqb_spec c 43); [done|]. destruct (N.eqb_spec c 45); [done|].
  cbn [orb].
  assert (Hzero : (c =? 48)%N = false).
  { destruct (N.eqb_spec c 48) as [->|]; [discriminate Hdigit|done]. }
  rewrite (stripPrefix_plain _ _ Hzero). cbn [parseDigits].
  by rewrite Hdigit.
Qed.

(** A settings input reads what is typed as a whole number.  The decimal
    numeral of an integer gives the Number value nearest to it, so the
    integer itself when it is a Number value; an empty field gives 0,
    and so does a text whose first character is neither white space, a
    sign nor a decimal digit. *)
Theorem settings_input_reads_numeral_or_zero :
  (forall n : Z, SettingsForm_onChange (codeUnits (pretty n)) = roundToDouble n)
  /\ (forall n : Z, isNumber n ->
        SettingsForm_onChange (codeUnits (pretty n)) = Finite n)
  /\ SettingsForm_onChange [] = Finite 0
  /\ (forall (c : N) (r : list N),
        isWhiteSpace c = false -> c <> 43%N -> c <> 45%N ->
        radixDigit 10 c = None ->
        SettingsForm_onChange (c :: r) = Finite 0).
Proof.
  split; [|split; [|split]].
  - apply SettingsForm_onChange_numeral.
  - intros n Hn. by rewrite SettingsForm_onChange_numeral.
  - reflexivity.
  - intros c r Hws Hplus Hminus Hdigit. unfold SettingsForm_onChange.
    by rewrite parseInt_no_number.
Qed.

Lemma settings_input_reads_numeral_or_zero_witness :
  isNumber 31
  /\ SettingsForm_onChange (codeUnits "31") = Finite 31
  /\ SettingsForm_onChange (codeUnits "9007199254740993")
     = Finite 9007199254740992
  /\ SettingsForm_onChange (codeUnits "abc") = Finite 0.
Proof.
  destruct settings_input_reads_numeral_or_zero as (Hany & Hnum & _ & Htext).
  assert (H31 : isNumber 31) by reflexivity.
  split; [exact H31|].
  split; [exact (Hnum 31 H31)|].
  split; [exact (Hany 9007199254740993)|].
  apply Htext; [reflexivity|discriminate|discriminate|reflexivity].
Defined.

(** ** [getDaysBetween] *)

(** [getDaysBetween] gives the nearest whole number of days between two
    instants, in either order: instants less than half a day off [n]
    days apart count as [n] days. *)
Theorem getDaysBetween_nearest_day (startMs endMs n : Z) :
  2 * Z.abs (Z.abs (startMs - endMs) - n * msPerDay) < msPerDay ->
  getDaysBetween startMs endMs = n /\ getDaysBetween endMs startMs = n.
Proof.
  intros Hnear.
  assert (Hone : forall x, 2 * Z.abs (x - n * msPerDay) < msPerDay ->
                           Math_round_div x msPerDay = n).
  { intros x Hx. unfold Math_round_div. pose proof msPerDay_pos as HD.
    symmetry. apply (Z.div_unique _ _ _ (2 * x + msPerDay - n * (2 * msPerDay)));
      lia. }
  unfold getDaysBetween. split; apply Hone; [exact Hnear|].
  replace (Z.abs (endMs - startMs)) with (Z.abs (startMs - endMs)) by lia.
  exact Hnear.
Qed.

Lemma getDaysBetween_nearest_day_witness :
  getDaysBetween (10 * msPerDay) (13 * msPerDay - 3600000) = 3
  /\ getDaysBetween (13 * msPerDay - 3600000) (10 * msPerDay) = 3.
Proof.
  apply (getDaysBetween_nearest_day (10 * msPerDay)
           (13 * msPerDay - 3600000) 3).
  vm_compute. reflexivity.
Defined.

(** ** Calendar grid *)

Lemma map_const_replicate {A B} (f : A -> B) (c : B) (l : list A) :
  (forall x, In x l -> f x = c) -> List.map f l = replicate (length l) c.
Proof.
  induction l as [|x l IH]; intros Hf; [reflexivity|].
  cbn [List.map length replicate]. rewrite Hf by (by left).
  f_equal. apply IH. intros y Hy. apply Hf. by right.
Qed.

Lemma map_seq_from {B} (n : nat) : forall (f : nat -> B) (a : nat),
  List.map f (List.seq a n)
  = List.map (fun j => f (a + j)%nat) (List.seq 0 n).
Proof.
  induction n as [|n IH]; intros f a; [reflexivity|].
  cbn [List.seq List.map]. rewrite Nat.add_0_r. f_equal.
  rewrite (IH f (S a)), (IH (fun j => f (a + j)%nat) 1%nat).
  apply List.map_ext. intros j. f_equal. lia.
Qed.

(** The 42 cells of the calendar show every day of the month once and in
    order: [startDay] empty cells, then the days 1 to [daysInMonth], then
    empty cells to the end.  (A month starts on weekday 0 to 6 and has at
    most 31 days, so the grid always has room.) *)
Theorem calendar_grid_shows_each_day_once (startDay daysInMonth : Z) :
  0 <= startDay -> 0 <= daysInMonth -> startDay + daysInMonth <= 42 ->
  days startDay daysInMonth
  = replicate (Z.to_nat startDay) None
    ++ List.map (fun j => Some (Z.of_nat j + 1))
         (List.seq 0 (Z.to_nat daysInMonth))
    ++ replicate (42 - Z.to_nat startDay - Z.to_nat daysInMonth) None.
Proof.
  intros Hs Hd Hroom. unfold days.
  set (n1 := Z.to_nat startDay). set (n2 := Z.to_nat daysInMonth).
  set (n3 := (42 - n1 - n2)%nat).
  replace 42%nat with (n1 + (n2 + n3))%nat by lia.
  rewrite !seq_app, !List.map_app. cbn [Nat.add]. f_equal; [|f_equal].
  - rewrite (map_const_replicate _ None); [by rewrite length_seq|].
    intros i Hi%in_seq.
    destruct (Z.ltb_spec 0 (Z.of_nat i - startDay + 1)); [lia|reflexivity].
  - rewrite map_seq_from.
    apply List.map_ext_in. intros j Hj%in_seq.
    destruct (Z.ltb_spec 0 (Z.of_nat (n1 + j) - startDay + 1)); [|lia].
    destruct (Z.leb_spec (Z.of_nat (n1 + j) - startDay + 1) daysInMonth);
      [|lia].
    cbn [andb]. f_equal. lia.
  - rewrite (map_const_replicate _ None); [by rewrite length_seq|].
    intros i Hi%in_seq.
    destruct (Z.leb_spec (Z.of_nat i - startDay + 1) daysInMonth); [lia|].
    by rewrite andb_false_r.
Qed.

Lemma calendar_grid_shows_each_day_once_witness :
  days 6 31
  = replicate 6 None
    ++ List.map (fun j => Some (Z.of_nat j + 1)) (List.seq 0 31)
    ++ replicate 5 None.
Proof.
  apply (calendar_grid_shows_each_day_once 6 31); lia.
Defined.

(** ** Symptoms of the daily logger *)

Lemma existsb_eqb_In (sym : string) (symptoms : list string) :
  existsb (String.eqb sym) symptoms = true <-> In sym symptoms.
Proof.
  rewrite existsb_exists. split.
  - intros (x & Hin & ->%String.eqb_eq). exact Hin.
  - intros Hin. exists sym. split; [exact Hin|apply String.eqb_refl].
Qed.

Lemma filter_out_In (sym other : string) (symptoms : list string) :
  In other (List.filter (fun s => negb (String.eqb s sym)) symptoms)
  <-> In other symptoms /\ other <> sym.
Proof.
  rewrite filter_In, negb_true_iff, String.eqb_neq. reflexivity.
Qed.

(** Tapping a symptom chip flips that symptom and no other: afterwards
    the symptom is selected exactly when it was not before, every other
    symptom is selected exactly when it was, and a list without
    repetitions stays one. *)
Theorem toggleSymptom_flips_one_symptom
    (sym : string) (symptoms : list string) :
  (In sym (toggleSymptom sym symptoms) <-> ~ In sym symptoms)
  /\ (forall other, other <> sym ->
        (In other (toggleSymptom sym symptoms) <-> In other symptoms))
  /\ (NoDup symptoms -> NoDup (toggleSymptom sym symptoms)).
Proof.
  unfold toggleSymptom.
  destruct (existsb (String.eqb sym) symptoms) eqn:Hhas.
  - apply existsb_eqb_In in Hhas. split; [|split].
    + rewrite filter_out_In. tauto.
    + intros other Hother. rewrite filter_out_In. tauto.
    + intros Hnodup. apply NoDup_ListNoDup, List.NoDup_filter.
      by apply NoDup_ListNoDup.
  - assert (Hnot : ~ In sym symptoms).
    { intros Hin%existsb_eqb_In. congruence. }
    split; [|split].
    + rewrite in_app_iff. cbn [In]. tauto.
    + intros other Hother. rewrite in_app_iff. cbn [In]. split; [|tauto].
      intros [?|[?|[]]]; [done|congruence].
    + intros Hnodup. apply NoDup_app. split; [exact Hnodup|]. split.
      * intros x Hx Hx'%list_elem_of_In. destruct Hx' as [<-|[]].
        by apply Hnot, list_elem_of_In.
      * apply NoDup_singleton.
Qed.

Lemma toggleSymptom_flips_one_symptom_witness :
  let symptoms := ["Cramps"%string; "Headache"%string] in
  NoDup symptoms
  /\ NoDup (toggleSymptom "Bloating"%string symptoms)
  /\ toggleSymptom "Cramps"%string symptoms = ["Headache"%string].
Proof.
  intros symptoms.
  assert (Hnodup : NoDup symptoms).
  { apply NoDup_ListNoDup.
    constructor; [intros [Heq|[]]; discriminate|].
    constructor; [intros []|constructor]. }
  split; [exact Hnodup|]. split; [|reflexivity].
  by apply (toggleSymptom_flips_one_symptom "Bloating"%string symptoms).
Defined.

(** Selecting a symptom that was not selected and tapping it again gives
    back the list as it was, order included. *)
Theorem toggleSymptom_twice_restores
    (sym : string) (symptoms : list string) :
  ~ In sym symptoms ->
  toggleSymptom sym (toggleSymptom sym symptoms) = symptoms.
Proof.
  intros Hnot.
  assert (Hfirst : toggleSymptom sym symptoms = symptoms ++ [sym]).
  { unfold toggleSymptom.
    destruct (existsb (String.eqb sym) symptoms) eqn:Hhas; [|reflexivity].
    apply existsb_eqb_In in Hhas. contradiction. }
  rewrite Hfirst. unfold toggleSymptom.
  replace (existsb (String.eqb sym) (symptoms ++ [sym])) with true.
  - rewrite List.filter_app. cbn [List.filter].
    rewrite String.eqb_refl. cbn [negb]. rewrite app_nil_r.
    clear Hfirst. induction symptoms as [|x l IH]; [reflexivity|].
    cbn [List.filter].
    destruct (String.eqb_spec x sym) as [->|_].
    + exfalso. apply Hnot. by left.
    + cbn [negb]. f_equal. apply IH. intros Hin. apply Hnot. by right.
  - symmetry. apply existsb_eqb_In, in_app_iff. right. by left.
Qed.

Lemma toggleSymptom_twice_restores_witness :
  toggleSymptom "Bloating"%string
    (toggleSymptom "Bloating"%string ["Cramps"%string; "Headache"%string])
  = ["Cramps"%string; "Headache"%string].
Proof.
  apply (toggleSymptom_twice_restores "Bloating"%string).
  intros [Heq|[Heq|[]]]; discriminate.
Defined.

(** ** [formatDate] *)

Section FormatDate.

Let ch (k : N) : ascii := pretty_N_char k.

Lemma ch_code (k : N) : (k < 10)%N -> N_of_ascii (ch k) = (48 + k)%N.
Proof.
  intros Hk.
  assert (k = 0 \/ k = 1 \/ k = 2 \/ k = 3 \/ k = 4 \/ k = 5 \/ k = 6
          \/ k = 7 \/ k = 8 \/ k = 9)%N as Hcases by lia.
  repeat (destruct Hcases as [->|Hcases]; [reflexivity|]).
  subst k. reflexivity.
Qed.

Lemma ch_compare (a b : N) :
  (a < 10)%N -> (b < 10)%N -> Ascii.compare (ch a) (ch b) = (a ?= b)%N.
Proof.
  intros Ha Hb. unfold Ascii.compare. rewrite !ch_code by done.
  destruct (N.compare_spec a b); [subst; apply N.compare_refl|..].
  - apply N.compare_lt_iff. lia.
  - apply N.compare_gt_iff. lia.
Qed.

(** The four digits of a year from 1000 to 9999. *)
Lemma String_four_digits (y : Z) :
  1000 <= y <= 9999 ->
  exists a3 a2 a1 a0 : N,
    (a3 < 10 /\ a2 < 10 /\ a1 < 10 /\ a0 < 10)%N
    /\ y = Z.of_N (1000 * a3 + 100 * a2 + 10 * a1 + a0)
    /\ String_ y
       = String (ch a3) (String (ch a2) (String (ch a1) (String (ch a0) ""))).
Proof.
  intros Hy. destruct y as [|p|p]; try lia.
  set (x := N.pos p).
  set (q1 := (x / 10)%N). set (q2 := (q1 / 10)%N). set (q3 := (q2 / 10)%N).
  pose proof (N.div_mod x 10 ltac:(lia)) as H0.
  pose proof (N.div_mod q1 10 ltac:(lia)) as H1.
  pose proof (N.div_mod q2 10 ltac:(lia)) as H2.
  pose proof (N.mod_lt x 10 ltac:(lia)) as B0.
  pose proof (N.mod_lt q1 10 ltac:(lia)) as B1.
  pose proof (N.mod_lt q2 10 ltac:(lia)) as B2.
  fold q1 in H0. fold q2 in H1. fold q3 in H2.
  assert (Hx : (1000 <= x <= 9999)%N) by (unfold x; lia).
  assert (Hxp : Z.pos p = Z.of_N x) by reflexivity.
  assert (Hq3 : (q3 < 10)%N /\ (q3 / 10 = 0)%N /\ (q3 mod 10 = q3)%N
                /\ (0 < q1 /\ 0 < q2 /\ 0 < q3)%N).
  { assert (q3 < 10 /\ 0 < q1 /\ 0 < q2 /\ 0 < q3)%N as (? & ? & ? & ?).
    { set (r0 := (x mod 10)%N) in *. set (r1 := (q1 mod 10)%N) in *.
      set (r2 := (q2 mod 10)%N) in *. clearbody r0 r1 r2 q1 q2 q3 x. lia. }
    split; [done|]. split; [by apply N.div_small|].
    split; [by apply N.mod_small|done]. }
  destruct Hq3 as (Hlt & Hdiv & Hmod & Hq1 & Hq2 & Hq3).
  exists q3, (q2 mod 10)%N, (q1 mod 10)%N, (x mod 10)%N.
  split; [done|].
  split.
  { set (r0 := (x mod 10)%N) in *. set (r1 := (q1 mod 10)%N) in *.
    set (r2 := (q2 mod 10)%N) in *. clearbody r0 r1 r2 q1 q2 q3 x. lia. }
  rewrite (String_safe (Z.pos p))
    by (change (2 ^ 53) with 9007199254740992; lia).
  unfold pretty, pretty_Z, pretty_positive, pretty, pretty_N.
  fold x. rewrite decide_False by done.
  rewrite (pretty_N_go_step x) by done. fold q1.
  rewrite (pretty_N_go_step q1) by done. fold q2.
  rewrite (pretty_N_go_step q2) by done. fold q3.
  rewrite (pretty_N_go_step q3) by done.
  rewrite Hdiv, pretty_N_go_0, Hmod. reflexivity.
Qed.

(** The two digits [padStart(2, '0')] makes of a number below 100. *)
Lemma padStart_two_digits (n : Z) :
  0 <= n <= 99 ->
  exists b1 b0 : N,
    (b1 < 10 /\ b0 < 10)%N
    /\ n = Z.of_N (10 * b1 + b0)
    /\ padStart 2 "0" (String_ n) = String (ch b1) (String (ch b0) "").
Proof.
  intros Hn. destruct n as [|p|p]; try lia.
  { exists 0%N, 0%N. repeat split; lia. }
  set (x := N.pos p). set (q1 := (x / 10)%N).
  pose proof (N.div_mod x 10 ltac:(lia)) as H0.
  pose proof (N.mod_lt x 10 ltac:(lia)) as B0.
  fold q1 in H0.
  assert (Hx : (1 <= x <= 99)%N) by (unfold x; lia).
  assert (Hxp : Z.pos p = Z.of_N x) by reflexivity.
  assert (Hq1 : (q1 < 10)%N).
  { set (r0 := (x mod 10)%N) in *. clearbody r0 q1 x. lia. }
  exists q1, (x mod 10)%N.
  split; [done|]. split.
  { set (r0 := (x mod 10)%N) in *. clearbody r0 q1 x. lia. }
  rewrite (String_safe (Z.pos p))
    by (change (2 ^ 53) with 9007199254740992; lia).
  unfold pretty, pretty_Z, pretty_positive, pretty, pretty_N.
  fold x. rewrite decide_False by done.
  rewrite (pretty_N_go_step x) by done. fold q1.
  destruct (decide (q1 = 0)%N) as [Hz|Hnz].
  - rewrite Hz, pretty_N_go_0. reflexivity.
  - rewrite (pretty_N_go_step q1) by (by apply N.neq_0_lt_0).
    rewrite (N.div_small q1 10), pretty_N_go_0, (N.mod_small q1 10) by done.
    reflexivity.
Qed.

(** A plain date prints as its eight digits around two hyphens. *)
Lemma formatDate_digits (dt : LocalDate) :
  plainDate dt ->
  exists a3 a2 a1 a0 b1 b0 c1 c0 : N,
    (a3 < 10 /\ a2 < 10 /\ a1 < 10 /\ a0 < 10
     /\ b1 < 10 /\ b0 < 10 /\ c1 < 10 /\ c0 < 10)%N
    /\ getFullYear dt = Z.of_N (1000 * a3 + 100 * a2 + 10 * a1 + a0)
    /\ getMonth dt + 1 = Z.of_N (10 * b1 + b0)
    /\ getDate dt = Z.of_N (10 * c1 + c0)
    /\ formatDate dt
       = String (ch a3) (String (ch a2) (String (ch a1) (String (ch a0)
           (String "-" (String (ch b1) (String (ch b0)
              (String "-" (String (ch c1) (String (ch c0) ""))))))))).
Proof.
  intros (Hy & Hm & Hd).
  destruct (String_four_digits _ Hy) as (a3 & a2 & a1 & a0 & Ba & Ea & Sa).
  destruct (padStart_two_digits (getMonth dt + 1) ltac:(lia))
    as (b1 & b0 & Bb & Eb & Sb).
  destruct (padStart_two_digits (getDate dt) ltac:(lia))
    as (c1 & c0 & Bc & Ec & Sc).
  exists a3, a2, a1, a0, b1, b0, c1, c0.
  split; [lia|]. do 3 (split; [assumption|]).
  unfold formatDate. rewrite Sa, Sb, Sc. reflexivity.
Qed.

Lemma ch_inj (a b : N) : (a < 10)%N -> (b < 10)%N -> ch a = ch b -> a = b.
Proof. apply pretty_N_char_inj. Qed.

(** A plain date prints as ten characters, and two plain dates print the
    same only when year, month and day agree: the date string can serve
    as the key of a log. *)
Theorem formatDate_is_a_key (a b : LocalDate) :
  plainDate a -> plainDate b ->
  String.length (formatDate a) = 10%nat
  /\ (formatDate a = formatDate b <-> a = b).
Proof.
  intros Ha Hb.
  destruct (formatDate_digits a Ha)
    as (a3 & a2 & a1 & a0 & b1 & b0 & c1 & c0 & Ba & Ey & Em & Ed & Sa).
  destruct (formatDate_digits b Hb)
    as (a3' & a2' & a1' & a0' & b1' & b0' & c1' & c0' & Bb & Ey' & Em' & Ed'
        & Sb).
  split; [by rewrite Sa|]. split; [|by intros ->].
  rewrite Sa, Sb. intros Heq. injection Heq as H1 H2 H3 H4 H5 H6 H7 H8.
  apply ch_inj in H1, H2, H3, H4, H5, H6, H7, H8; try lia.
  destruct a as [ya ma da], b as [yb mb db]. cbn in *. f_equal; lia.
Qed.

Lemma formatDate_is_a_key_witness :
  String.length (formatDate (mkLocalDate 2024 1 9)) = 10%nat
  /\ formatDate (mkLocalDate 2024 1 9) = "2024-02-09"%string.
Proof.
  assert (Hp : plainDate (mkLocalDate 2024 1 9)) by (unfold plainDate; cbn; lia).
  destruct (formatDate_is_a_key _ _ Hp Hp) as [Hlen _].
  split; [exact Hlen|reflexivity].
Defined.

(** Date strings sort the way dates do: on plain dates the order of
    strings by code unit, which is the order [sort()] and the query's
    [orderBy('date')] use, is the order of the calendar. *)
Theorem formatDate_order_is_calendar_order (a b : LocalDate) :
  plainDate a -> plainDate b ->
  (stringLt (formatDate a) (formatDate b) <-> dateBefore a b).
Proof.
  intros Ha Hb.
  destruct (formatDate_digits a Ha)
    as (a3 & a2 & a1 & a0 & b1 & b0 & c1 & c0 & Ba & Ey & Em & Ed & Sa).
  destruct (formatDate_digits b Hb)
    as (a3' & a2' & a1' & a0' & b1' & b0' & c1' & c0' & Bb & Ey' & Em' & Ed'
        & Sb).
  unfold stringLt, dateBefore. rewrite Sa, Sb.
  cbn [String.compare].
  rewrite !ch_compare by lia.
  change (Ascii.compare "-" "-") with Eq.
  clear Sa Sb Ha Hb.
  destruct (N.compare_spec a3 a3'); [|split; [lia|done]|split; [done|lia]].
  destruct (N.compare_spec a2 a2'); [|split; [lia|done]|split; [done|lia]].
  destruct (N.compare_spec a1 a1'); [|split; [lia|done]|split; [done|lia]].
  destruct (N.compare_spec a0 a0'); [|split; [lia|done]|split; [done|lia]].
  destruct (N.compare_spec b1 b1'); [|split; [lia|done]|split; [done|lia]].
  destruct (N.compare_spec b0 b0'); [|split; [lia|done]|split; [done|lia]].
  destruct (N.compare_spec c1 c1'); [|split; [lia|done]|split; [done|lia]].
  destruct (N.compare_spec c0 c0'); [split; [done|lia]|split; [lia|done]|
                                     split; [done|lia]].
Qed.

Lemma formatDate_order_is_calendar_order_witness :
  stringLt (formatDate (mkLocalDate 2024 8 30))
    (formatDate (mkLocalDate 2024 9 2)).
Proof.
  apply (formatDate_order_is_calendar_order (mkLocalDate 2024 8 30)
           (mkLocalDate 2024 9 2)); try (unfold plainDate; cbn; lia).
  unfold dateBefore. cbn. lia.
Defined.

End FormatDate.

(** ** Statistics and overlay when the closure and the clock agree *)

(** A logs snapshot with exactly one flow entry, delivered to a callback
    that holds the settings the state holds: the current cycle day is the
    number of days, counted in started days, that separate now from that
    entry's date, and days-until-next is the configured cycle length
    minus that day, floored at 0. *)
Theorem single_flow_entry_stats
    (captured : UserSettings) (clock : Clock) (fetchedLogs : list DailyLog)
    (e : DailyLog) (st : AppState) :
  List.filter flowNotNull fetchedLogs = [e] ->
  captured = settings st ->
  let st' := onLogsSnapshot captured clock fetchedLogs st in
  let elapsed := Z.abs (nowMs clock - getTime (date e)) in
  (currentDay st' - 1) * msPerDay < elapsed <= currentDay st' * msPerDay
  /\ currentDay st' = Math_ceil_div elapsed msPerDay
  /\ daysUntilNext st'
     = Z.max 0 (cycleLength (settings st') - currentDay st').
Proof.
  intros Hone ->. unfold onLogsSnapshot, calculateCycleStats, flowLogs.
  cbn [logs setLogs]. rewrite Hone.
  rewrite sortDesc_singleton. cbn [currentDay daysUntilNext settings
    setIsPeriodToday setDaysUntilNext setCurrentDay setLoading setLogs
    length].
  rewrite msPerDay_value.
  split; [apply Math_ceil_div_spec, msPerDay_pos|].
  split; reflexivity.
Qed.

Lemma single_flow_entry_stats_witness :
  let e := mkLog 99 99 (Some Medium) None [] None in
  let quiet := mkLog 50 50 None (Some "Happy"%string) [] None in
  let clock := mkClock (100 * msPerDay + 36000000) 100 in
  let st := setSettings (mkSettings 30 5) initialState in
  let st' := onLogsSnapshot (mkSettings 30 5) clock [quiet; e] st in
  List.filter flowNotNull [quiet; e] = [e]
  /\ mkSettings 30 5 = settings st
  /\ currentDay st' = 2 /\ daysUntilNext st' = 28.
Proof.
  intros e quiet clock st st'.
  destruct (single_flow_entry_stats (mkSettings 30 5) clock [quiet; e] e
              st eq_refl eq_refl) as (_ & Hday & Hnext).
  fold st' in Hday, Hnext.
  split; [reflexivity|]. split; [reflexivity|].
  rewrite Hnext, Hday. split; reflexivity.
Defined.



(** A calendar cell whose UTC midnight lies after the present instant,
    with a flow entry in the list: the cell is marked fertile exactly
    when its day of cycle, the distance in days from the last period
    start taken modulo the cycle length, lies in the band that runs from
    4 days before to 1 day after the estimated ovulation day, cycle
    length minus 14 (lower and upper end are 5 days apart). *)
Theorem future_date_fertile_band
    (logs : list DailyLog) (s : UserSettings) (clock : Clock)
    (d : Z) (l : DailyLog) :
  In l logs -> flowTruthy l = true ->
  nowMs clock < getTime d ->
  exists lastStart,
    lastPeriodStart logs = Some lastStart
    /\ (forall l', In l' logs -> flowTruthy l' = true -> date l' <= lastStart)
    /\ let ovulationDay := cycleLength s - 14 in
       let dayOfCycle := Z.rem (Z.abs (d - lastStart)) (cycleLength s) in
       (isFertile (getDateStatus logs s clock d) = true <->
          cycleLength s <> 0
          /\ (ovulationDay + 1) - 5 <= dayOfCycle <= ovulationDay + 1).
Proof.
  intros Hin Hflow Hfuture.
  destruct (lastPeriodStart_newest logs l Hin Hflow)
    as (lastStart & Hlast & _ & Hmax).
  exists lastStart. split; [exact Hlast|]. split; [exact Hmax|].
  intros ovulationDay dayOfCycle.
  unfold getDateStatus. rewrite Hlast.
  rewrite diffDays_between_dates.
  destruct (Z.ltb_spec (nowMs clock) (getTime d)); [|lia].
  cbn [isFertile]. unfold jsRem.
  destruct (Z.eqb_spec (cycleLength s) 0) as [Hz|Hnz].
  - simpl. split; [discriminate|]. intros [? _]. contradiction.
  - cbn [nanTest]. fold ovulationDay dayOfCycle.
    rewrite andb_true_iff, !Z.leb_le. split.
    + intros [? ?]. split; [done|]. lia.
    + intros [_ ?]. lia.
Qed.

Lemma future_date_fertile_band_witness :
  let entry := mkLog 99 99 (Some Medium) None [] None in
  let clock := mkClock (100 * msPerDay + 36000000) 100 in
  In entry [entry] /\ flowTruthy entry = true
  /\ nowMs clock < getTime 109
  /\ isFertile (getDateStatus [entry] (mkSettings 28 5) clock 109) = true.
Proof.
  intros entry clock.
  assert (Hin : In entry [entry]) by (left; reflexivity).
  assert (Hfuture : nowMs clock < getTime 109) by (vm_compute; reflexivity).
  destruct (future_date_fertile_band [entry] (mkSettings 28 5) clock 109
              entry Hin eq_refl Hfuture) as (lastStart & Hlast & _ & Hband).
  split; [exact Hin|]. split; [reflexivity|]. split; [exact Hfuture|].
  apply Hband. injection Hlast as <-. vm_compute.
  split; [discriminate|]. split; discriminate.
Defined.
